(** * memo_ai: the debug module ([public/js/debug.js])

    A shallow embedding of the browser-side debug module: the recorder of the
    last API call, the debug modal, the two clipboard exports and the
    debug-mode gate of the menu.

    Conventions of the embedding.
    - A JavaScript string is its sequence of UTF-16 code units ([jstring]);
      [length] is the source's [.length].
    - JSON data ([json]) is what request bodies and parsed responses are made
      of.  A number is carried by the text [Number::toString] prints for it,
      so no floating-point arithmetic is needed; an object is the list of its
      own properties in property order.
    - [value] adds [undefined] ([None]).
    - The page is a [world]: the four elements the module looks up, the
      slots of [window.App] it touches, [localStorage], and logs of the
      platform calls it issues (fetch, clipboard, toast, console).
    - Code runs in the monad [M]: state passing with exceptions; the state
      survives a throw, as in JavaScript.  An [await] is sequenced in place
      and so are the callbacks of a promise chain; what the network or the
      clipboard answers is an argument.  A call of an async function that is
      not awaited returns at the callee's first [await]: [openDebugModal]
      runs [loadDebugInfo_begin], and the rest of the load
      ([loadDebugInfo_resume]) runs when the fetch answers. *)

From Stdlib Require Import List NArith ZArith Bool Ascii String Lia.
From Stdlib Require DecimalNat.
Import ListNotations.

Local Open Scope N_scope.
Local Open Scope list_scope.

(** ** Strings *)

Definition jstring := list N.

(** [a === b] on strings *)
Fixpoint jstring_eqb (a b : jstring) : bool :=
  match a, b with
  | [], [] => true
  | x :: a', y :: b' => (x =? y) && jstring_eqb a' b'
  | _, _ => false
  end.

(** Literals.  A literal of the source is written as a Rocq string (UTF-8
    bytes) and decoded to code units; a code point above U+FFFF gives a
    surrogate pair. *)

Definition emit_code_point (cp : N) : jstring :=
  if cp <? 65536 then [cp]
  else [55296 + (cp - 65536) / 1024; 56320 + (cp - 65536) mod 1024].

Fixpoint decode_utf8 (acc : N) (need : nat) (s : string) : jstring :=
  match s with
  | EmptyString => []
  | String a r =>
      let b := N_of_ascii a in
      match need with
      | O =>
          if b <? 128 then b :: decode_utf8 0 0 r
          else if b <? 224 then decode_utf8 (N.land b 31) 1 r
          else if b <? 240 then decode_utf8 (N.land b 15) 2 r
          else decode_utf8 (N.land b 7) 3 r
      | S O => emit_code_point (acc * 64 + N.land b 63) ++ decode_utf8 0 0 r
      | S n => decode_utf8 (acc * 64 + N.land b 63) n r
      end
  end.

Definition u (s : string) : jstring := decode_utf8 0 0 s.

(** Markup literals.  The source's markup uses the double quote for
    attributes and never the apostrophe; [markup] reads a literal written with
    apostrophes in place of the double quotes. *)

Definition dquote : N := 34.
Definition apostrophe : N := 39.

Definition markup (s : string) : jstring :=
  map (fun c => if c =? apostrophe then dquote else c) (u s).

(** Decimal text of a natural number: what a template literal or [+] gives
    for a length, an index or a status code. *)

Fixpoint digits_of_uint (d : Decimal.uint) : jstring :=
  match d with
  | Decimal.Nil => []
  | Decimal.D0 r => 48 :: digits_of_uint r
  | Decimal.D1 r => 49 :: digits_of_uint r
  | Decimal.D2 r => 50 :: digits_of_uint r
  | Decimal.D3 r => 51 :: digits_of_uint r
  | Decimal.D4 r => 52 :: digits_of_uint r
  | Decimal.D5 r => 53 :: digits_of_uint r
  | Decimal.D6 r => 54 :: digits_of_uint r
  | Decimal.D7 r => 55 :: digits_of_uint r
  | Decimal.D8 r => 56 :: digits_of_uint r
  | Decimal.D9 r => 57 :: digits_of_uint r
  end.

Definition decimal (n : nat) : jstring := digits_of_uint (Nat.to_uint n).

(** The inverse reading, used to state that a text encodes a number. *)

Fixpoint uint_of_digits (s : jstring) : option Decimal.uint :=
  match s with
  | [] => Some Decimal.Nil
  | c :: r =>
      match uint_of_digits r with
      | None => None
      | Some d =>
          if c =? 48 then Some (Decimal.D0 d)
          else if c =? 49 then Some (Decimal.D1 d)
          else if c =? 50 then Some (Decimal.D2 d)
          else if c =? 51 then Some (Decimal.D3 d)
          else if c =? 52 then Some (Decimal.D4 d)
          else if c =? 53 then Some (Decimal.D5 d)
          else if c =? 54 then Some (Decimal.D6 d)
          else if c =? 55 then Some (Decimal.D7 d)
          else if c =? 56 then Some (Decimal.D8 d)
          else if c =? 57 then Some (Decimal.D9 d)
          else None
      end
  end.

Definition read_decimal (s : jstring) : option nat :=
  match s with
  | [] => None
  | _ => option_map Nat.of_uint (uint_of_digits s)
  end.

(** ** JSON data and JavaScript values *)

#[warnings="-register-all"]
Inductive json : Type :=
| JNull
| JBool (b : bool)
| JNum (text : jstring)
| JStr (s : jstring)
| JArr (items : list json)
| JObj (props : list (jstring * json)).

(** [None] is [undefined]. *)
Definition value := option json.

(** Structural induction through the lists of items and properties. *)
Section JsonInduction.
Variable P : json -> Prop.
Hypothesis HNull : P JNull.
Hypothesis HBool : forall b, P (JBool b).
Hypothesis HNum : forall t, P (JNum t).
Hypothesis HStr : forall s, P (JStr s).
Hypothesis HArr : forall items, Forall P items -> P (JArr items).
Hypothesis HObj : forall props, Forall (fun kv => P (snd kv)) props -> P (JObj props).

Fixpoint json_induction (v : json) : P v :=
    match v with
    | JNull => HNull
    | JBool b => HBool b
    | JNum t => HNum t
    | JStr s => HStr s
    | JArr items =>
        HArr items
          ((fix all (l : list json) : Forall P l :=
              match l with
              | [] => Forall_nil P
              | x :: r => Forall_cons x (json_induction x) (all r)
              end) items)
    | JObj props =>
        HObj props
          ((fix all (l : list (jstring * json)) : Forall (fun kv => P (snd kv)) l :=
              match l with
              | [] => Forall_nil _
              | kv :: r => Forall_cons kv (json_induction (snd kv)) (all r)
              end) props)
    end.
End JsonInduction.

(** *** The operations of the language the module relies on *)

(** [ToBoolean]: what [if (x)], [!x], [x || y] and [x ? a : b] test. *)
Definition truthy (v : value) : bool :=
  match v with
  | None => false
  | Some JNull => false
  | Some (JBool b) => b
  | Some (JNum t) => negb (jstring_eqb t (u "0"))
  | Some (JStr s) => negb (jstring_eqb s [])
  | Some (JArr _) => true
  | Some (JObj _) => true
  end.

(** [x || y] *)
Definition js_or (x y : value) : value := if truthy x then x else y.

(** Own property of an object, first entry of that name. *)
Fixpoint own_property (name : jstring) (props : list (jstring * json)) : value :=
  match props with
  | [] => None
  | (k, x) :: r => if jstring_eqb k name then Some x else own_property name r
  end.

(** Exceptions: the name and the message of the thrown error. *)
Record exn : Type := mkExn { exn_name : jstring; message : jstring }.

Inductive completion (A : Type) : Type :=
| Normal (a : A)
| Throw (e : exn).
Arguments Normal {A} a.
Arguments Throw {A} e.

Definition TypeError (msg : string) : exn := mkExn (u "TypeError") (u msg).

(** [v.name] for the property names this module reads ([timestamp], [cors],
    [models], ...): none of them is a property of a prototype, an index or
    [length], so only an object can answer; [null] and [undefined] throw. *)
Definition get (v : value) (name : string) : completion value :=
  match v with
  | None => Throw (TypeError "Cannot read properties of undefined")
  | Some JNull => Throw (TypeError "Cannot read properties of null")
  | Some (JObj props) => Normal (own_property (u name) props)
  | Some _ => Normal None
  end.

Definition has_own (name : jstring) (props : list (jstring * json)) : bool :=
  match own_property name props with Some _ => true | None => false end.

(** [ToString], as a template literal applies it.  An array is joined with
    commas, [null] items as the empty text.  An object answers
    [[object Object]] through [Object.prototype.toString]; an own property
    [toString] hides that method and, being data, cannot be called: the
    conversion throws. *)
Fixpoint ToString_json (v : json) : completion jstring :=
  match v with
  | JNull => Normal (u "null")
  | JBool true => Normal (u "true")
  | JBool false => Normal (u "false")
  | JNum t => Normal t
  | JStr s => Normal s
  | JArr items =>
      (fix join (first : bool) (l : list json) : completion jstring :=
         match l with
         | [] => Normal []
         | x :: r =>
             match (match x with JNull => Normal [] | _ => ToString_json x end) with
             | Throw e => Throw e
             | Normal sx =>
                 match join false r with
                 | Throw e => Throw e
                 | Normal sr => Normal ((if first then [] else u ",") ++ sx ++ sr)
                 end
             end
         end) true items
  | JObj props =>
      if has_own (u "toString") props
      then Throw (TypeError "Cannot convert object to primitive value")
      else Normal (u "[object Object]")
  end.

Definition ToString (v : value) : completion jstring :=
  match v with
  | None => Normal (u "undefined")
  | Some x => ToString_json x
  end.

(** [Array.prototype.join(sep)]: [null] items give the empty text. *)
Definition join_item (x : json) : completion jstring :=
  match x with JNull => Normal [] | _ => ToString_json x end.

Fixpoint join_from (sep : jstring) (first : bool) (l : list json) : completion jstring :=
  match l with
  | [] => Normal []
  | x :: r =>
      match join_item x with
      | Throw e => Throw e
      | Normal sx =>
          match join_from sep false r with
          | Throw e => Throw e
          | Normal sr => Normal ((if first then [] else sep) ++ sx ++ sr)
          end
      end
  end.

Definition array_join (sep : jstring) (l : list json) : completion jstring :=
  join_from sep true l.

(** [v.join(sep)]: only an array has the method. *)
Definition call_join (v : value) (sep : jstring) : completion jstring :=
  match v with
  | Some (JArr items) => array_join sep items
  | None => Throw (TypeError "Cannot read properties of undefined")
  | Some JNull => Throw (TypeError "Cannot read properties of null")
  | Some _ => Throw (TypeError "join is not a function")
  end.

(** [Object.entries]: the own enumerable string-keyed properties, in
    property order; the indices of an array or of a string. *)
Fixpoint indexed {A : Type} (i : nat) (l : list A) : list (jstring * A) :=
  match l with
  | [] => []
  | x :: r => (decimal i, x) :: indexed (S i) r
  end.

Definition entries (v : value) : completion (list (jstring * json)) :=
  match v with
  | None | Some JNull =>
      Throw (TypeError "Cannot convert undefined or null to object")
  | Some (JObj props) => Normal props
  | Some (JArr items) => Normal (indexed 0 items)
  | Some (JStr s) => Normal (indexed 0 (map (fun c => JStr [c]) s))
  | Some (JBool _) | Some (JNum _) => Normal []
  end.

(** *** [JSON.stringify(v, null, 2)] *)

Definition hex_digit (n : N) : N := if n <? 10 then 48 + n else 87 + n.

Definition unicode_escape (c : N) : jstring :=
  u "\u" ++ [hex_digit (c / 4096 mod 16); hex_digit (c / 256 mod 16);
             hex_digit (c / 16 mod 16); hex_digit (c mod 16)].

Definition is_high_surrogate (c : N) : bool := (55296 <=? c) && (c <=? 56319).
Definition is_low_surrogate (c : N) : bool := (56320 <=? c) && (c <=? 57343).

Definition quote_code_unit (c : N) : jstring :=
  if c =? 8 then u "\b"
  else if c =? 9 then u "\t"
  else if c =? 10 then u "\n"
  else if c =? 12 then u "\f"
  else if c =? 13 then u "\r"
  else if c =? 34 then [92; 34]
  else if c =? 92 then [92; 92]
  else if c <? 32 then unicode_escape c
  else [c].

(** A surrogate pair goes through; a lone surrogate is escaped. *)
Fixpoint quote_body (s : jstring) : jstring :=
  match s with
  | [] => []
  | c :: r =>
      if is_high_surrogate c then
        match r with
        | d :: r' =>
            if is_low_surrogate d then c :: d :: quote_body r'
            else unicode_escape c ++ quote_body r
        | [] => unicode_escape c
        end
      else if is_low_surrogate c then unicode_escape c ++ quote_body r
      else quote_code_unit c ++ quote_body r
  end.

Definition QuoteJSONString (s : jstring) : jstring :=
  dquote :: quote_body s ++ [dquote].

Definition newline : jstring := [10].
Definition gap : jstring := u "  ".

Fixpoint join_text (sep : jstring) (l : list jstring) : jstring :=
  match l with
  | [] => []
  | [x] => x
  | x :: r => x ++ sep ++ join_text sep r
  end.

Fixpoint serialize (indent : jstring) (v : json) : jstring :=
  match v with
  | JNull => u "null"
  | JBool true => u "true"
  | JBool false => u "false"
  | JNum t => t
  | JStr s => QuoteJSONString s
  | JArr [] => u "[]"
  | JArr items =>
      let stepback := indent in
      let indent := indent ++ gap in
      u "[" ++ newline ++ indent
        ++ join_text (u "," ++ newline ++ indent) (map (serialize indent) items)
        ++ newline ++ stepback ++ u "]"
  | JObj [] => u "{}"
  | JObj props =>
      let stepback := indent in
      let indent := indent ++ gap in
      u "{" ++ newline ++ indent
        ++ join_text (u "," ++ newline ++ indent)
             (map (fun kv => QuoteJSONString (fst kv) ++ u ": " ++ serialize indent (snd kv)) props)
        ++ newline ++ stepback ++ u "}"
  end.

(** [undefined] has no JSON text: the result is [undefined]. *)
Definition JSON_stringify (v : value) : option jstring :=
  match v with
  | None => None
  | Some x => Some (serialize [] x)
  end.

(** An object literal whose properties may hold [undefined]: those are
    skipped by [JSON.stringify]. *)
Fixpoint defined_props (l : list (jstring * value)) : list (jstring * json) :=
  match l with
  | [] => []
  | (k, Some x) :: r => (k, x) :: defined_props r
  | (_, None) :: r => defined_props r
  end.

(** [text.replace(/</g, '&lt;')] *)
Definition lt_sign : N := 60.

Definition escape_lt (text : jstring) : jstring :=
  flat_map (fun c => if c =? lt_sign then u "&lt;" else [c]) text.

(** ** The recorder's sanitising copy *)

(** [`[Image: ${v.length} chars]`] *)
Definition image_placeholder (n : nat) : jstring :=
  u "[Image: " ++ decimal n ++ u " chars]".

(** The replacer:
    [(k, v) => (k === 'image_data' && typeof v === 'string') ? `[Image: ...]` : v] *)
Definition replacer (k : jstring) (v : json) : json :=
  match jstring_eqb k (u "image_data"), v with
  | true, JStr s => JStr (image_placeholder (List.length s))
  | _, _ => v
  end.

(** [JSON.parse(JSON.stringify(v, replacer))] on JSON data, for the value
    held under key [k]: the replacer sees the value first; what it returns is
    serialised, an array item by item under its index, an object property by
    property under its name, and parsed back to the same structure.  The
    replacer returns arrays and objects as they are, so the walk descends
    into [v] itself. *)
Fixpoint sanitized_copy (k : jstring) (v : json) : json :=
  match v with
  | JArr items =>
      JArr ((fix walk (i : nat) (l : list json) : list json :=
               match l with
               | [] => []
               | x :: r => sanitized_copy (decimal i) x :: walk (S i) r
               end) 0%nat items)
  | JObj props =>
      JObj (map (fun kv => (fst kv, sanitized_copy (fst kv) (snd kv))) props)
  | _ => replacer k v
  end.

(** The root is visited under the empty key; [undefined] has no JSON text
    and [JSON.parse(undefined)] is a syntax error. *)
Definition sanitize (payload : value) : completion json :=
  match payload with
  | None => Throw (mkExn (u "SyntaxError") (u "Unexpected token u in JSON at position 0"))
  | Some x => Normal (sanitized_copy [] x)
  end.

(** ** The page *)

(** The record [recordApiCall] builds.  [error] and [status] default to
    [null]; [endpoint] and [method] are stored as passed. *)
Record ApiCall : Type := mkApiCall {
  timestamp : jstring;
  endpoint : value;
  method : value;
  status : json;
  error : json;
  request : json;
  response : json
}.

(** The object as [JSON.stringify] sees it, properties in literal order. *)
Definition json_of_call (c : ApiCall) : json :=
  JObj (defined_props
          [(u "timestamp", Some (JStr (timestamp c)));
           (u "endpoint", endpoint c);
           (u "method", method c);
           (u "status", Some (status c));
           (u "error", Some (error c));
           (u "request", Some (request c));
           (u "response", Some (response c))]).

(** An element the module looks up is [None] when [getElementById] answers
    [null]; of a present element only the attribute the module touches is
    kept. *)
Record world : Type := mkWorld {
  debugModal : option (list jstring);
  debugInfoContent : option jstring;
  modelSelectMenuItem : option jstring;
  debugInfoMenuItem : option jstring;
  lastApiCall : option ApiCall;
  lastModelList : value;
  serverMode : value;
  enabled : bool;
  defaultPrompt : value;
  current : value;
  localStorage : list (jstring * jstring);
  showToast : bool;
  toasts : list jstring;
  clipboard : list jstring;
  fetches : list jstring;
  console : list jstring
}.

Definition set_debugModal (x : option (list jstring)) (w : world) : world :=
  mkWorld x (debugInfoContent w) (modelSelectMenuItem w) (debugInfoMenuItem w) (lastApiCall w) (lastModelList w) (serverMode w) (enabled w) (defaultPrompt w) (current w) (localStorage w) (showToast w) (toasts w) (clipboard w) (fetches w) (console w).

Definition set_debugInfoContent (x : option jstring) (w : world) : world :=
  mkWorld (debugModal w) x (modelSelectMenuItem w) (debugInfoMenuItem w) (lastApiCall w) (lastModelList w) (serverMode w) (enabled w) (defaultPrompt w) (current w) (localStorage w) (showToast w) (toasts w) (clipboard w) (fetches w) (console w).

Definition set_modelSelectMenuItem (x : option jstring) (w : world) : world :=
  mkWorld (debugModal w) (debugInfoContent w) x (debugInfoMenuItem w) (lastApiCall w) (lastModelList w) (serverMode w) (enabled w) (defaultPrompt w) (current w) (localStorage w) (showToast w) (toasts w) (clipboard w) (fetches w) (console w).

Definition set_debugInfoMenuItem (x : option jstring) (w : world) : world :=
  mkWorld (debugModal w) (debugInfoContent w) (modelSelectMenuItem w) x (lastApiCall w) (lastModelList w) (serverMode w) (enabled w) (defaultPrompt w) (current w) (localStorage w) (showToast w) (toasts w) (clipboard w) (fetches w) (console w).

Definition set_lastApiCall (x : option ApiCall) (w : world) : world :=
  mkWorld (debugModal w) (debugInfoContent w) (modelSelectMenuItem w) (debugInfoMenuItem w) x (lastModelList w) (serverMode w) (enabled w) (defaultPrompt w) (current w) (localStorage w) (showToast w) (toasts w) (clipboard w) (fetches w) (console w).

Definition set_lastModelList (x : value) (w : world) : world :=
  mkWorld (debugModal w) (debugInfoContent w) (modelSelectMenuItem w) (debugInfoMenuItem w) (lastApiCall w) x (serverMode w) (enabled w) (defaultPrompt w) (current w) (localStorage w) (showToast w) (toasts w) (clipboard w) (fetches w) (console w).

Definition set_serverMode (x : value) (w : world) : world :=
  mkWorld (debugModal w) (debugInfoContent w) (modelSelectMenuItem w) (debugInfoMenuItem w) (lastApiCall w) (lastModelList w) x (enabled w) (defaultPrompt w) (current w) (localStorage w) (showToast w) (toasts w) (clipboard w) (fetches w) (console w).

Definition set_defaultPrompt (x : value) (w : world) : world :=
  mkWorld (debugModal w) (debugInfoContent w) (modelSelectMenuItem w) (debugInfoMenuItem w) (lastApiCall w) (lastModelList w) (serverMode w) (enabled w) x (current w) (localStorage w) (showToast w) (toasts w) (clipboard w) (fetches w) (console w).

Definition set_current (x : value) (w : world) : world :=
  mkWorld (debugModal w) (debugInfoContent w) (modelSelectMenuItem w) (debugInfoMenuItem w) (lastApiCall w) (lastModelList w) (serverMode w) (enabled w) (defaultPrompt w) x (localStorage w) (showToast w) (toasts w) (clipboard w) (fetches w) (console w).

Definition set_localStorage (x : list (jstring * jstring)) (w : world) : world :=
  mkWorld (debugModal w) (debugInfoContent w) (modelSelectMenuItem w) (debugInfoMenuItem w) (lastApiCall w) (lastModelList w) (serverMode w) (enabled w) (defaultPrompt w) (current w) x (showToast w) (toasts w) (clipboard w) (fetches w) (console w).

Definition set_toasts (x : list jstring) (w : world) : world :=
  mkWorld (debugModal w) (debugInfoContent w) (modelSelectMenuItem w) (debugInfoMenuItem w) (lastApiCall w) (lastModelList w) (serverMode w) (enabled w) (defaultPrompt w) (current w) (localStorage w) (showToast w) x (clipboard w) (fetches w) (console w).

Definition set_clipboard (x : list jstring) (w : world) : world :=
  mkWorld (debugModal w) (debugInfoContent w) (modelSelectMenuItem w) (debugInfoMenuItem w) (lastApiCall w) (lastModelList w) (serverMode w) (enabled w) (defaultPrompt w) (current w) (localStorage w) (showToast w) (toasts w) x (fetches w) (console w).

Definition set_fetches (x : list jstring) (w : world) : world :=
  mkWorld (debugModal w) (debugInfoContent w) (modelSelectMenuItem w) (debugInfoMenuItem w) (lastApiCall w) (lastModelList w) (serverMode w) (enabled w) (defaultPrompt w) (current w) (localStorage w) (showToast w) (toasts w) (clipboard w) x (console w).

Definition set_console (x : list jstring) (w : world) : world :=
  mkWorld (debugModal w) (debugInfoContent w) (modelSelectMenuItem w) (debugInfoMenuItem w) (lastApiCall w) (lastModelList w) (serverMode w) (enabled w) (defaultPrompt w) (current w) (localStorage w) (showToast w) (toasts w) (clipboard w) (fetches w) x.

(** *** Statements run in a state monad with exceptions *)

Definition M (A : Type) : Type := world -> completion A * world.

Definition ret {A : Type} (a : A) : M A := fun w => (Normal a, w).

Definition bind {A B : Type} (m : M A) (f : A -> M B) : M B :=
  fun w =>
    match m w with
    | (Normal a, w') => f a w'
    | (Throw e, w') => (Throw e, w')
    end.

Definition throw {A : Type} (e : exn) : M A := fun w => (Throw e, w).

(** [try { m } catch (err) { handler err }] *)
Definition try_catch {A : Type} (m : M A) (handler : exn -> M A) : M A :=
  fun w =>
    match m w with
    | (Normal a, w') => (Normal a, w')
    | (Throw e, w') => handler e w'
    end.

Definition lift {A : Type} (c : completion A) : M A := fun w => (c, w).

Definition gets {A : Type} (f : world -> A) : M A := fun w => (Normal (f w), w).

Definition modify (f : world -> world) : M unit := fun w => (Normal tt, f w).

Declare Scope js_scope.
Delimit Scope js_scope with js.
Notation "x <- m ;; k" := (bind m (fun x => k))
  (at level 61, m at next level, right associativity) : js_scope.
Notation "m ;; k" := (bind m (fun _ => k))
  (at level 61, right associativity) : js_scope.
Local Open Scope js_scope.

(** The world after a run, and how the run completed. *)
Definition after {A : Type} (m : M A) (w : world) : world := snd (m w).
Definition outcome {A : Type} (m : M A) (w : world) : completion A := fst (m w).

(** *** Platform calls *)

(** [if (window.showToast) window.showToast(msg)] and
    [window.showToast && window.showToast(msg)] *)
Definition toast_if_installed (msg : jstring) : M unit :=
  installed <- gets showToast ;;
  if installed then modify (fun w => set_toasts (toasts w ++ [msg]) w) else ret tt.

(** What the platform makes of [navigator.clipboard.writeText]: on a page
    without the Clipboard API (one served over plain http from another
    machine, say) [navigator.clipboard] is [undefined]; where the API is
    there, the write is issued and its promise resolves or rejects. *)
Inductive clipboard_outcome : Type :=
| NoClipboard
| Settles (written : bool).

(** [navigator.clipboard.writeText(text).then(onDone).catch(onFail)].  The
    source reads [navigator.clipboard] unguarded: without the API the member
    access throws before a promise exists, so neither callback runs. *)
Definition writeText (text : jstring) (answer : clipboard_outcome) (onDone onFail : M unit)
  : M unit :=
  match answer with
  | NoClipboard => throw (TypeError "Cannot read properties of undefined (reading 'writeText')")
  | Settles written =>
      modify (fun w => set_clipboard (clipboard w ++ [text]) w) ;;
      if written then onDone else onFail
  end.

Definition console_log (msg : jstring) : M unit :=
  modify (fun w => set_console (console w ++ [msg]) w).

(** [if (window.App.debug.enabled) console.log(msg, ...)] *)
Definition debug_log (msg : jstring) : M unit :=
  on <- gets enabled ;;
  if on then console_log msg else ret tt.

(** What a fetch answers: the promise rejects (network failure), or a
    response arrives whose body [res.json()] parses or rejects. *)
Record Response : Type := mkResponse {
  http_status : nat;
  statusText : jstring;
  body : completion json
}.

Inductive fetch_outcome : Type :=
| Rejected (e : exn)
| Responded (res : Response).

(** [res.ok]: the status is in the range 200-299. *)
Definition ok (res : Response) : bool :=
  (200 <=? http_status res)%nat && (http_status res <=? 299)%nat.

Definition fetch (url : jstring) (answer : fetch_outcome) : M Response :=
  modify (fun w => set_fetches (fetches w ++ [url]) w) ;;
  match answer with
  | Rejected e => throw e
  | Responded res => ret res
  end.

(** [await fetch(url)] in its two steps, for a caller that does not wait:
    the call issues the request and returns a promise; the [await] takes
    what the promise settles to. *)
Definition fetch_call (url : jstring) : M unit :=
  modify (fun w => set_fetches (fetches w ++ [url]) w).

Definition fetch_await (answer : fetch_outcome) : M Response :=
  match answer with
  | Rejected e => throw e
  | Responded res => ret res
  end.

(** [localStorage.removeItem(key)] *)
Definition removeItem (key : jstring) (store : list (jstring * jstring))
  : list (jstring * jstring) :=
  filter (fun kv => negb (jstring_eqb (fst kv) key)) store.

(** [localStorage.getItem(key)] *)
Fixpoint getItem (key : jstring) (store : list (jstring * jstring)) : option jstring :=
  match store with
  | [] => None
  | (k, x) :: r => if jstring_eqb k key then Some x else getItem key r
  end.

(** [classList.remove(token)] and [classList.add(token)] *)
Definition classList_remove (token : jstring) (classes : list jstring) : list jstring :=
  filter (fun c => negb (jstring_eqb c token)) classes.

Definition classList_add (token : jstring) (classes : list jstring) : list jstring :=
  if existsb (jstring_eqb token) classes then classes else classes ++ [token].

(** ** The module: [public/js/debug.js] *)

(** *** [renderDebugInfo], section by section

    Each block takes the markup built so far (the source's [html]) and
    returns it extended. *)

Definition render_timestamp (data : json) : M jstring :=
  stamp <- lift (get (Some data) "timestamp") ;;
  text <- lift (ToString (js_or stamp (Some (JStr (u "N/A"))))) ;;
  ret (markup "<div class='debug-timestamp'>取得時刻: " ++ text ++ markup "</div>").

Definition render_cors (data : json) (html : jstring) : M jstring :=
  cors <- lift (get (Some data) "cors") ;;
  if truthy cors then
    let html := html ++ markup "<div class='debug-section'>" in
    let html := html ++ markup "<h3>🔐 CORS設定</h3><div class='debug-grid'>" in
    origins <- lift (get cors "allowed_origins") ;;
    joined <- lift (call_join origins (u ", ")) ;;
    let html := html ++ markup "<div class='debug-item'><span class='debug-label'>許可オリジン:</span><code class='debug-value'>" ++ joined ++ markup "</code></div>" in
    restricted <- lift (get cors "is_restricted") ;;
    let html := html ++ markup "<div class='debug-item'><span class='debug-label'>制限モード:</span><span class='debug-value'>" ++ (if truthy restricted then u "✅ はい" else u "❌ いいえ (全許可)") ++ markup "</span></div>" in
    platform <- lift (get cors "detected_platform") ;;
    html <- (if truthy platform then
               text <- lift (ToString platform) ;;
               ret (html ++ markup "<div class='debug-item'><span class='debug-label'>検出プラットフォーム:</span><span class='debug-value'>" ++ text ++ markup "</span></div>")
             else ret html) ;;
    ret (html ++ markup "</div></div>")
  else ret html.

Definition render_last_call (html : jstring) : M jstring :=
  let html := html ++ markup "<div class='debug-section'>" in
  let html := html ++ markup "<h3>📡 最新API通信 <button class='btn-copy-debug' onclick='window.copyLastApiCall()'>📋 コピー</button></h3>" in
  call <- gets lastApiCall ;;
  let html :=
    match call with
    | Some c => html ++ markup "<pre class='debug-code'>" ++ escape_lt (serialize [] (json_of_call c)) ++ markup "</pre>"
    | None => html ++ markup "<p class='debug-hint'>まだAPI通信がありません。</p>"
    end in
  ret (html ++ markup "</div>").

(** [for (const [key, value] of list) html += ...] *)
Fixpoint for_of (l : list (jstring * json)) (body : jstring -> json -> jstring -> M jstring)
    (html : jstring) : M jstring :=
  match l with
  | [] => ret html
  | (key, value) :: r => html <- body key value html ;; for_of r body html
  end.

Definition render_environment (data : json) (html : jstring) : M jstring :=
  let html := html ++ markup "<div class='debug-section'><h3>⚙️ 環境情報</h3><div class='debug-grid'>" in
  environment <- lift (get (Some data) "environment") ;;
  pairs <- lift (entries (js_or environment (Some (JObj [])))) ;;
  html <- for_of pairs
            (fun key value html =>
               text <- lift (ToString (Some value)) ;;
               ret (html ++ markup "<div class='debug-item'><span class='debug-label'>" ++ key ++ markup ":</span><span class='debug-value'>" ++ text ++ markup "</span></div>"))
            html ;;
  ret (html ++ markup "</div></div>").

Definition render_env_vars (data : json) (html : jstring) : M jstring :=
  env_vars <- lift (get (Some data) "env_vars") ;;
  if truthy env_vars then
    let html := html ++ markup "<div class='debug-section'><h3>🔐 環境変数</h3><div class='debug-grid'>" in
    pairs <- lift (entries env_vars) ;;
    html <- for_of pairs
              (fun key value html =>
                 text <- lift (ToString (js_or (Some value) (Some (JStr (u "null"))))) ;;
                 ret (html ++ markup "<div class='debug-item'><span class='debug-label'>" ++ key ++ markup ":</span><code class='debug-value'>" ++ text ++ markup "</code></div>"))
              html ;;
    ret (html ++ markup "</div></div>")
  else ret html.

Definition render_models (data : json) (html : jstring) : M jstring :=
  models <- lift (get (Some data) "models") ;;
  if truthy models then
    raw_list <- lift (get models "raw_list") ;;
    modify (set_lastModelList raw_list) ;;
    let html := html ++ markup "<div class='debug-section'>" in
    recommended_count <- lift (get models "recommended_count") ;;
    recommended <- lift (ToString recommended_count) ;;
    total_count <- lift (get models "total_count") ;;
    total <- lift (ToString total_count) ;;
    let html := html ++ markup "<h3>📋 モデル一覧 (" ++ recommended ++ markup " 推奨 / " ++ total ++ markup " 全モデル) <button class='btn-copy-debug' onclick='window.copyModelList()'>📋 コピー</button></h3>" in
    let html := html ++ markup "<details style='margin-top: 8px;'>" in
    let html := html ++ markup "<summary style='cursor: pointer; padding: 8px; background: var(--bg-secondary); border-radius: 4px;'>全モデル生データを表示...</summary>" in
    match JSON_stringify raw_list with
    | None => throw (TypeError "Cannot read properties of undefined (reading 'replace')")
    | Some text =>
        let html := html ++ markup "<pre class='debug-code' style='max-height: 400px; overflow: auto; margin-top: 8px;'>" ++ escape_lt text ++ markup "</pre>" in
        let html := html ++ markup "</details>" in
        ret (html ++ markup "</div>")
    end
  else ret html.

Definition renderDebugInfo (data : json) : M unit :=
  content <- gets debugInfoContent ;;
  match content with
  | None => ret tt
  | Some _ =>
      html <- render_timestamp data ;;
      html <- render_cors data html ;;
      html <- render_last_call html ;;
      html <- render_environment data html ;;
      html <- render_env_vars data html ;;
      html <- render_models data html ;;
      modify (set_debugInfoContent (Some html))
  end.

(** *** [loadDebugInfo] *)

Definition loading_indicator : jstring :=
  markup "<div class='loading-indicator'><div class='spinner'></div><span>読み込み中...</span></div>".

Definition error_panel (msg : jstring) : jstring :=
  markup "
            <div class='debug-error'>
                <h3>❌ デバッグ情報の取得に失敗</h3>
                <p>" ++ msg ++ markup "</p>
                <p class='debug-hint'>
                    💡 ヒント: サーバーが起動しているか確認してください
                </p>
            </div>
        ".

(** [new Error(`HTTP ${res.status}: ${res.statusText}`)] *)
Definition http_error (res : Response) : exn :=
  mkExn (u "Error") (u "HTTP " ++ decimal (http_status res) ++ u ": " ++ statusText res).

Definition loadDebugInfo (answer : fetch_outcome) : M unit :=
  content <- gets debugInfoContent ;;
  match content with
  | None => ret tt
  | Some _ =>
      modify (set_debugInfoContent (Some loading_indicator)) ;;
      try_catch
        (res <- fetch (u "/api/debug5075378") answer ;;
         if negb (ok res) then throw (http_error res)
         else
           data <- lift (body res) ;;
           renderDebugInfo data)
        (fun err => modify (set_debugInfoContent (Some (error_panel (message err)))))
  end.

(** [loadDebugInfo] cut at its first suspension point, [await fetch(...)].
    A call runs [loadDebugInfo_begin]: up to the fetch being issued; the
    result tells whether the returned promise is pending on it ([false] when
    the function returned at the guard).  When the fetch answers,
    [loadDebugInfo_resume] runs the rest, inside the same [try]; it runs
    only where the load is pending, so on a page that has the target
    ([content] is the element found at the beginning). *)
Definition loadDebugInfo_begin : M bool :=
  content <- gets debugInfoContent ;;
  match content with
  | None => ret false
  | Some _ =>
      modify (set_debugInfoContent (Some loading_indicator)) ;;
      fetch_call (u "/api/debug5075378") ;;
      ret true
  end.

Definition loadDebugInfo_resume (answer : fetch_outcome) : M unit :=
  try_catch
    (res <- fetch_await answer ;;
     if negb (ok res) then throw (http_error res)
     else
       data <- lift (body res) ;;
       renderDebugInfo data)
    (fun err => modify (set_debugInfoContent (Some (error_panel (message err))))).

(** *** [openDebugModal], [closeDebugModal] *)

(** [loadDebugInfo()] is called without [await] and its promise dropped:
    the function returns once the load has begun. *)
Definition openDebugModal : M unit :=
  modal <- gets debugModal ;;
  match modal with
  | None => throw (TypeError "Cannot read properties of null (reading 'classList')")
  | Some classes =>
      modify (set_debugModal (Some (classList_remove (u "hidden") classes))) ;;
      loadDebugInfo_begin ;;
      ret tt
  end.

Definition closeDebugModal : M unit :=
  modal <- gets debugModal ;;
  match modal with
  | None => throw (TypeError "Cannot read properties of null (reading 'classList')")
  | Some classes => modify (set_debugModal (Some (classList_add (u "hidden") classes)))
  end.

(** *** [copyModelList], [copyLastApiCall] *)

(** The argument of [writeText] as text; [undefined] reads "undefined". *)
Definition text_or_undefined (t : option jstring) : jstring :=
  match t with Some x => x | None => u "undefined" end.

Definition copyModelList (answer : clipboard_outcome) : M unit :=
  list <- gets lastModelList ;;
  if negb (truthy list) then toast_if_installed (u "コピーするデータがありません")
  else
    writeText (text_or_undefined (JSON_stringify list)) answer
      (toast_if_installed (u "モデルデータをコピーしました"))
      (toast_if_installed (u "コピー失敗")).

Definition banner : jstring := u "=== Memo AI Debug ===" ++ newline.

Definition copyLastApiCall (answer : clipboard_outcome) : M unit :=
  call <- gets lastApiCall ;;
  match call with
  | None => toast_if_installed (u "コピーする履歴がありません")
  | Some c =>
      writeText (banner ++ serialize [] (json_of_call c)) answer
        (toast_if_installed (u "コピーしました"))
        (toast_if_installed (u "コピー失敗"))
  end.

(** *** [recordApiCall]

    [now] is [new Date().toISOString()]; an omitted [error] or [status] is
    [null]. *)
Definition or_null (v : value) : json :=
  match v with Some x => x | None => JNull end.

Definition recordApiCall (now : jstring) (endpoint method request response error status : value)
  : M unit :=
  request_copy <- lift (sanitize request) ;;
  response_copy <- lift (sanitize response) ;;
  modify (set_lastApiCall
            (Some (mkApiCall now endpoint method (or_null status) (or_null error)
                     request_copy response_copy))).

(** *** [updateDebugModeUI], [initializeDebugMode] *)

Definition updateDebugModeUI : M unit :=
  item <- gets modelSelectMenuItem ;;
  (match item with
   | Some _ =>
       mode <- gets serverMode ;;
       if truthy mode then modify (set_modelSelectMenuItem (Some []))
       else
         modify (set_modelSelectMenuItem (Some (u "none"))) ;;
         modify (set_current (Some JNull)) ;;
         modify (fun w => set_localStorage (removeItem (u "memo_ai_selected_model") (localStorage w)) w)
   | None => ret tt
   end) ;;
  debugInfoItem <- gets debugInfoMenuItem ;;
  (match debugInfoItem with
   | Some _ =>
       mode <- gets serverMode ;;
       if truthy mode then modify (set_debugInfoMenuItem (Some []))
       else modify (set_debugInfoMenuItem (Some (u "none")))
   | None => ret tt
   end) ;;
  debug_log (u "[DEBUG_MODE] UI updated. Model selection:").

Definition initializeDebugMode (answer : fetch_outcome) : M unit :=
  try_catch
    (res <- fetch (u "/api/config") answer ;;
     if negb (ok res) then
       console_log (u "[DEBUG_MODE] Failed to fetch config, assuming debug_mode=false")
     else
       data <- lift (body res) ;;
       debug_mode <- lift (get (Some data) "debug_mode") ;;
       modify (set_serverMode (js_or debug_mode (Some (JBool false)))) ;;
       default_system_prompt <- lift (get (Some data) "default_system_prompt") ;;
       (if truthy default_system_prompt then
          modify (set_defaultPrompt default_system_prompt) ;;
          debug_log (u "[CONFIG] App.defaultPrompt loaded from backend")
        else ret tt) ;;
       debug_log (u "[DEBUG_MODE] Server debug_mode:") ;;
       updateDebugModeUI)
    (fun err =>
       console_log (u "[DEBUG_MODE] Error fetching config:") ;;
       modify (set_serverMode (Some (JBool false))) ;;
       updateDebugModeUI).

(** ** What the statements below are phrased with *)

(** *** The recorder, in the words of the specification

    A field named [image_data] holding a text becomes the placeholder of
    that text's length; everything else is kept, arrays and objects being
    treated the same way inside. *)
Fixpoint scrub (v : json) : json :=
  match v with
  | JArr items => JArr (map scrub items)
  | JObj props =>
      JObj (map (fun kv =>
                   (fst kv,
                    match snd kv with
                    | JStr s =>
                        if jstring_eqb (fst kv) (u "image_data")
                        then JStr (image_placeholder (List.length s))
                        else JStr s
                    | _ => scrub (snd kv)
                    end)) props)
  | _ => v
  end.

(** The payload with the characters of every [image_data] text overwritten
    (by [c]), lengths kept: what is left of a payload once the image
    contents are forgotten. *)
Fixpoint blank (c : N) (v : json) : json :=
  match v with
  | JArr items => JArr (map (blank c) items)
  | JObj props =>
      JObj (map (fun kv =>
                   (fst kv,
                    match snd kv with
                    | JStr s =>
                        if jstring_eqb (fst kv) (u "image_data")
                        then JStr (repeat c (List.length s))
                        else JStr s
                    | _ => blank c (snd kv)
                    end)) props)
  | _ => v
  end.

(** Reading the length back from a placeholder. *)
Fixpoint strip_prefix (p s : jstring) : option jstring :=
  match p, s with
  | [], _ => Some s
  | a :: p', b :: s' => if a =? b then strip_prefix p' s' else None
  | _ :: _, [] => None
  end.

Definition strip_suffix (p s : jstring) : option jstring :=
  option_map (@rev N) (strip_prefix (rev p) (rev s)).

Definition placeholder_length (t : jstring) : option nat :=
  match strip_prefix (u "[Image: ") t with
  | None => None
  | Some r =>
      match strip_suffix (u " chars]") r with
      | None => None
      | Some d => read_decimal d
      end
  end.

(** *** The debug snapshot *)

(** Modelled from the spec: the body the debug endpoint answers with, as the
    interface section describes it; the backend route that builds it is not
    among these sources.  [timestamp] is a text; [cors] holds the list of
    allowed origins, the restriction flag and an optional platform name;
    [environment] and [env_vars] map names to texts, numbers, booleans or
    [null]; [models] holds two counts and the raw list.  Every field is
    optional. *)
Inductive scalar : Type :=
| SNull
| SBool (b : bool)
| SNum (text : jstring)
| SStr (s : jstring).

(** Modelled from the spec: the [cors] field,
    [{allowed_origins: string[], is_restricted: bool, detected_platform?: string}]. *)
Record CorsInfo : Type := mkCorsInfo {
  allowed_origins : list jstring;
  is_restricted : bool;
  detected_platform : option jstring
}.

(** Modelled from the spec: the [models] field,
    [{recommended_count: int, total_count: int, raw_list: any[]}]. *)
Record ModelCatalog : Type := mkModelCatalog {
  recommended_count : nat;
  total_count : nat;
  raw_list : list json
}.

(** Modelled from the spec: the JSON body of [GET /api/debug5075378], every
    field optional. *)
Record DebugSnapshot : Type := mkDebugSnapshot {
  snapshot_timestamp : option jstring;
  cors : option CorsInfo;
  environment : option (list (jstring * scalar));
  env_vars : option (list (jstring * scalar));
  models : option ModelCatalog
}.

Definition json_of_scalar (x : scalar) : json :=
  match x with
  | SNull => JNull
  | SBool b => JBool b
  | SNum t => JNum t
  | SStr s => JStr s
  end.

Definition json_of_map (l : list (jstring * scalar)) : json :=
  JObj (map (fun kv => (fst kv, json_of_scalar (snd kv))) l).

Definition json_of_cors (c : CorsInfo) : json :=
  JObj (defined_props
          [(u "allowed_origins", Some (JArr (map JStr (allowed_origins c))));
           (u "is_restricted", Some (JBool (is_restricted c)));
           (u "detected_platform", option_map JStr (detected_platform c))]).

Definition json_of_models (m : ModelCatalog) : json :=
  JObj [(u "recommended_count", JNum (decimal (recommended_count m)));
        (u "total_count", JNum (decimal (total_count m)));
        (u "raw_list", JArr (raw_list m))].

(** The parsed body [renderDebugInfo] receives. *)
Definition json_of_snapshot (d : DebugSnapshot) : json :=
  JObj (defined_props
          [(u "timestamp", option_map JStr (snapshot_timestamp d));
           (u "cors", option_map json_of_cors (cors d));
           (u "environment", option_map json_of_map (environment d));
           (u "env_vars", option_map json_of_map (env_vars d));
           (u "models", option_map json_of_models (models d))]).

(** *** The rendered page, section by section *)

Definition text_of_scalar (x : scalar) : jstring :=
  match x with
  | SNull => u "null"
  | SBool true => u "true"
  | SBool false => u "false"
  | SNum t => t
  | SStr s => s
  end.

Definition nonempty (s : jstring) : bool :=
  match s with [] => false | _ => true end.

Definition timestamp_line (d : DebugSnapshot) : jstring :=
  markup "<div class='debug-timestamp'>取得時刻: "
    ++ match snapshot_timestamp d with
       | Some t => if nonempty t then t else u "N/A"
       | None => u "N/A"
       end
    ++ markup "</div>".

Definition restricted_label : jstring := u "✅ はい".
Definition unrestricted_label : jstring := u "❌ いいえ (全許可)".

Definition cors_section (c : CorsInfo) : jstring :=
  markup "<div class='debug-section'>"
    ++ markup "<h3>🔐 CORS設定</h3><div class='debug-grid'>"
    ++ markup "<div class='debug-item'><span class='debug-label'>許可オリジン:</span><code class='debug-value'>"
    ++ join_text (u ", ") (allowed_origins c)
    ++ markup "</code></div>"
    ++ markup "<div class='debug-item'><span class='debug-label'>制限モード:</span><span class='debug-value'>"
    ++ (if is_restricted c then restricted_label else unrestricted_label)
    ++ markup "</span></div>"
    ++ match detected_platform c with
       | Some p =>
           if nonempty p
           then markup "<div class='debug-item'><span class='debug-label'>検出プラットフォーム:</span><span class='debug-value'>"
                  ++ p ++ markup "</span></div>"
           else []
       | None => []
       end
    ++ markup "</div></div>".

(** The block a JSON text is shown in: [<] escaped, inside [pre]. *)
Definition json_block (opening : jstring) (text : jstring) : jstring :=
  opening ++ escape_lt text ++ markup "</pre>".

Definition last_call_section (call : option ApiCall) : jstring :=
  markup "<div class='debug-section'>"
    ++ markup "<h3>📡 最新API通信 <button class='btn-copy-debug' onclick='window.copyLastApiCall()'>📋 コピー</button></h3>"
    ++ match call with
       | Some c => json_block (markup "<pre class='debug-code'>") (serialize [] (json_of_call c))
       | None => markup "<p class='debug-hint'>まだAPI通信がありません。</p>"
       end
    ++ markup "</div>".

Definition environment_item (kv : jstring * scalar) : jstring :=
  markup "<div class='debug-item'><span class='debug-label'>" ++ fst kv
    ++ markup ":</span><span class='debug-value'>" ++ text_of_scalar (snd kv)
    ++ markup "</span></div>".

Definition environment_section (env : option (list (jstring * scalar))) : jstring :=
  markup "<div class='debug-section'><h3>⚙️ 環境情報</h3><div class='debug-grid'>"
    ++ List.concat (map environment_item (match env with Some l => l | None => [] end))
    ++ markup "</div></div>".

Definition env_var_item (kv : jstring * scalar) : jstring :=
  markup "<div class='debug-item'><span class='debug-label'>" ++ fst kv
    ++ markup ":</span><code class='debug-value'>"
    ++ (if truthy (Some (json_of_scalar (snd kv))) then text_of_scalar (snd kv) else u "null")
    ++ markup "</code></div>".

Definition env_vars_section (vars : option (list (jstring * scalar))) : jstring :=
  match vars with
  | None => []
  | Some l =>
      markup "<div class='debug-section'><h3>🔐 環境変数</h3><div class='debug-grid'>"
        ++ List.concat (map env_var_item l)
        ++ markup "</div></div>"
  end.

Definition models_section (catalog : option ModelCatalog) : jstring :=
  match catalog with
  | None => []
  | Some m =>
      markup "<div class='debug-section'>"
        ++ markup "<h3>📋 モデル一覧 (" ++ decimal (recommended_count m)
        ++ markup " 推奨 / " ++ decimal (total_count m)
        ++ markup " 全モデル) <button class='btn-copy-debug' onclick='window.copyModelList()'>📋 コピー</button></h3>"
        ++ markup "<details style='margin-top: 8px;'>"
        ++ markup "<summary style='cursor: pointer; padding: 8px; background: var(--bg-secondary); border-radius: 4px;'>全モデル生データを表示...</summary>"
        ++ json_block (markup "<pre class='debug-code' style='max-height: 400px; overflow: auto; margin-top: 8px;'>")
             (serialize [] (JArr (raw_list m)))
        ++ markup "</details>"
        ++ markup "</div>"
  end.

Definition page (d : DebugSnapshot) (call : option ApiCall) : jstring :=
  timestamp_line d
    ++ match cors d with Some c => cors_section c | None => [] end
    ++ last_call_section call
    ++ environment_section (environment d)
    ++ env_vars_section (env_vars d)
    ++ models_section (models d).

(** *** Failing fetches *)

(** The message of the error a fetch ends in, if it fails: the rejection of
    the request, a status outside 200-299, or a body that does not parse. *)
Definition failure_message (answer : fetch_outcome) : option jstring :=
  match answer with
  | Rejected e => Some (message e)
  | Responded res =>
      if ok res then
        match body res with
        | Throw e => Some (message e)
        | Normal _ => None
        end
      else Some (u "HTTP " ++ decimal (http_status res) ++ u ": " ++ statusText res)
  end.

Definition static_hint : jstring := u "💡 ヒント: サーバーが起動しているか確認してください".

(** [needle] occurs in [text]. *)
Definition occurs_in (needle text : jstring) : Prop :=
  exists before rest, text = before ++ needle ++ rest.

(** *** Sample pages and inputs *)

(** A freshly loaded page with none of the four elements. *)
Definition bare_page : world :=
  mkWorld None None None None None None None false None None [] false [] [] [] [].

(** The page of the application: the modal hidden, both menu items shown,
    a model chosen and remembered, debug mode on from an earlier load. *)
Definition app_page : world :=
  mkWorld (Some [u "modal"; u "hidden"]) (Some []) (Some []) (Some [])
    None None (Some (JBool true)) false None (Some (JStr (u "gemini/gemini-2.0-flash")))
    [(u "memo_ai_selected_model", u "gemini/gemini-2.0-flash")]
    true [] [] [] [].

Definition sample_call : ApiCall :=
  mkApiCall (u "2026-01-01T00:00:00.000Z") (Some (JStr (u "/api/chat"))) (Some (JStr (u "POST")))
    (JNum (u "200")) JNull
    (JObj [(u "text", JStr (u "<b>hi</b>")); (u "image_data", JStr (u "[Image: 4 chars]"))])
    (JObj [(u "reply", JStr (u "ok"))]).

Definition sample_snapshot : DebugSnapshot :=
  mkDebugSnapshot (Some (u "2026-01-01"))
    (Some (mkCorsInfo [u "http://localhost:8000"; u "https://example.com"] true None))
    (Some [(u "python", SStr (u "3.12"))])
    None
    (Some (mkModelCatalog 1 2 [JObj [(u "id", JStr (u "gemini/gemini-2.0-flash"))]; JStr (u "<script>")])).

Definition server_error : fetch_outcome :=
  Responded (mkResponse 500 (u "Internal Server Error") (Normal JNull)).

Definition config_answer (debug_mode : bool) : fetch_outcome :=
  Responded (mkResponse 200 (u "OK") (Normal (JObj [(u "debug_mode", JBool debug_mode)]))).

(** *** Notions for the further properties *)

(** A rendering block [appends] when it changes nothing on the page and, if
    it completes, returns the markup it was given, extended. *)
Definition appends (html : jstring) (m : M jstring) : Prop :=
  forall w, exists c, m w = (c, w) /\ forall a, c = Normal a -> exists rest, a = html ++ rest.

(** Whether a payload holds, at any depth, a text under the key
    [image_data]. *)
Fixpoint has_image_text (v : json) : bool :=
  match v with
  | JArr items => existsb has_image_text items
  | JObj props =>
      existsb (fun kv =>
                 match snd kv with
                 | JStr _ => jstring_eqb (fst kv) (u "image_data")
                 | _ => has_image_text (snd kv)
                 end) props
  | _ => false
  end.

(** * Properties *)

Example u_ascii : u "image_data" = [105; 109; 97; 103; 101; 95; 100; 97; 116; 97].
Proof. reflexivity. Qed.

Example u_bmp : u "✅ はい" = [9989; 32; 12399; 12356].
Proof. reflexivity. Qed.

Example u_astral : u "📋" = [55357; 56523].
Proof. reflexivity. Qed.

Example markup_quotes :
  markup "<p class='x'>" = [60; 112; 32; 99; 108; 97; 115; 115; 61; 34; 120; 34; 62].
Proof. reflexivity. Qed.

Example decimal_17 : decimal 17 = u "17".
Proof. reflexivity. Qed.

Example image_placeholder_3 : image_placeholder 3 = u "[Image: 3 chars]".
Proof. reflexivity. Qed.

Example serialize_sample :
  serialize [] (JObj [(u "a", JArr [JNum (u "1"); JNull]); (u "b", JStr (u "x<y"))])
  = markup "{
  'a': [
    1,
    null
  ],
  'b': 'x<y'
}".
Proof. reflexivity. Qed.

Example ToString_nested_array :
  ToString (Some (JArr [JNum (u "1"); JNull; JArr [JStr (u "a"); JBool true]]))
  = Normal (u "1,,a,true").
Proof. reflexivity. Qed.

Example ToString_shadowed_method :
  ToString (Some (JObj [])) = Normal (u "[object Object]")
  /\ ToString (Some (JObj [(u "toString", JNull)]))
     = Throw (TypeError "Cannot convert object to primitive value").
Proof. split; reflexivity. Qed.

Example entries_of_text :
  entries (Some (JStr (u "ab"))) = Normal [(u "0", JStr (u "a")); (u "1", JStr (u "b"))].
Proof. reflexivity. Qed.

Example quote_escapes :
  QuoteJSONString [10; 34; 1; 55357; 97] = markup "'\n\'\u0001\ud83da'".
Proof. reflexivity. Qed.

Example sanitize_nested :
  sanitize
    (Some (JObj [(u "text", JStr (u "hi"));
                 (u "image_data", JStr (u "AAAA"));
                 (u "items",
                  JArr [JObj [(u "image_data", JStr (u "abcdefghijkl"))];
                        JObj [(u "image_data", JNum (u "5"))]])]))
  = Normal
      (JObj [(u "text", JStr (u "hi"));
             (u "image_data", JStr (u "[Image: 4 chars]"));
             (u "items",
              JArr [JObj [(u "image_data", JStr (u "[Image: 12 chars]"))];
                    JObj [(u "image_data", JNum (u "5"))]])]).
Proof. reflexivity. Qed.

Example loadDebugInfo_sample_page :
  debugInfoContent
    (after (loadDebugInfo
              (Responded (mkResponse 200 (u "OK") (Normal (json_of_snapshot sample_snapshot)))))
       (set_lastApiCall (Some sample_call) app_page))
  = Some (markup "<div class='debug-timestamp'>取得時刻: 2026-01-01</div><div class='debug-section'><h3>🔐 CORS設定</h3><div class='debug-grid'><div class='debug-item'><span class='debug-label'>許可オリジン:</span><code class='debug-value'>http://localhost:8000, https://example.com</code></div><div class='debug-item'><span class='debug-label'>制限モード:</span><span class='debug-value'>✅ はい</span></div></div></div><div class='debug-section'><h3>📡 最新API通信 <button class='btn-copy-debug' onclick='window.copyLastApiCall()'>📋 コピー</button></h3><pre class='debug-code'>{
  'timestamp': '2026-01-01T00:00:00.000Z',
  'endpoint': '/api/chat',
  'method': 'POST',
  'status': 200,
  'error': null,
  'request': {
    'text': '&lt;b>hi&lt;/b>',
    'image_data': '[Image: 4 chars]'
  },
  'response': {
    'reply': 'ok'
  }
}</pre></div><div class='debug-section'><h3>⚙️ 環境情報</h3><div class='debug-grid'><div class='debug-item'><span class='debug-label'>python:</span><span class='debug-value'>3.12</span></div></div></div><div class='debug-section'><h3>📋 モデル一覧 (1 推奨 / 2 全モデル) <button class='btn-copy-debug' onclick='window.copyModelList()'>📋 コピー</button></h3><details style='margin-top: 8px;'><summary style='cursor: pointer; padding: 8px; background: var(--bg-secondary); border-radius: 4px;'>全モデル生データを表示...</summary><pre class='debug-code' style='max-height: 400px; overflow: auto; margin-top: 8px;'>[
  {
    'id': 'gemini/gemini-2.0-flash'
  },
  '&lt;script>'
]</pre></details></div>").
Proof. vm_compute. reflexivity. Qed.

Example renderDebugInfo_malformed_cors :
  let data := JObj [(u "cors", JObj [(u "is_restricted", JBool true)])] in
  debugInfoContent (after (loadDebugInfo (Responded (mkResponse 200 (u "OK") (Normal data)))) app_page)
  = Some (error_panel (u "Cannot read properties of undefined")).
Proof. vm_compute. reflexivity. Qed.

(** ** Strings and numbers *)

Lemma jstring_eqb_eq (a b : jstring) : jstring_eqb a b = true <-> a = b.
Proof.
  revert b. induction a as [|x a IH]; intros [|y b]; simpl; split; intro H;
    try reflexivity; try discriminate.
  - apply andb_true_iff in H as [Hxy Hab].
    apply N.eqb_eq in Hxy. apply IH in Hab. congruence.
  - injection H as -> ->. rewrite N.eqb_refl. simpl. now apply IH.
Qed.

Lemma jstring_eqb_refl (a : jstring) : jstring_eqb a a = true.
Proof. now apply jstring_eqb_eq. Qed.

Lemma digits_are_not_image_data (d : Decimal.uint) :
  jstring_eqb (digits_of_uint d) (u "image_data") = false.
Proof. destruct d; reflexivity. Qed.

Lemma uint_of_digits_of_uint (d : Decimal.uint) :
  uint_of_digits (digits_of_uint d) = Some d.
Proof. induction d; simpl; rewrite ?IHd; reflexivity. Qed.

Lemma decimal_nonempty (n : nat) : decimal n <> [].
Proof.
  unfold decimal. intro H.
  assert (Hnil : Nat.to_uint n = Decimal.Nil)
    by (destruct (Nat.to_uint n); simpl in H; try discriminate; reflexivity).
  pose proof (DecimalNat.Unsigned.of_to n) as Hn. rewrite Hnil in Hn.
  simpl in Hn. subst n. discriminate Hnil.
Qed.

Lemma read_decimal_decimal (n : nat) : read_decimal (decimal n) = Some n.
Proof.
  unfold read_decimal. pose proof (decimal_nonempty n) as Hne.
  destruct (decimal n) eqn:E; [congruence|].
  rewrite <- E. unfold decimal. rewrite uint_of_digits_of_uint. simpl.
  now rewrite DecimalNat.Unsigned.of_to.
Qed.

Lemma strip_prefix_app (p r : jstring) : strip_prefix p (p ++ r) = Some r.
Proof.
  induction p as [|a p IH]; simpl; [reflexivity|].
  now rewrite N.eqb_refl.
Qed.

Lemma strip_suffix_app (p r : jstring) : strip_suffix p (r ++ p) = Some r.
Proof.
  unfold strip_suffix. rewrite rev_app_distr, strip_prefix_app. simpl.
  now rewrite rev_involutive.
Qed.

Lemma placeholder_length_image_placeholder (n : nat) :
  placeholder_length (image_placeholder n) = Some n.
Proof.
  unfold placeholder_length, image_placeholder.
  rewrite strip_prefix_app, strip_suffix_app. apply read_decimal_decimal.
Qed.

(** ** The sanitising copy *)

Lemma replacer_other_key (k : jstring) (v : json) :
  jstring_eqb k (u "image_data") = false -> replacer k v = v.
Proof. intro H. unfold replacer. now rewrite H. Qed.

(** The walk of the source, key by key, is the recursive description. *)
Lemma sanitized_copy_scrub (v : json) :
  forall k,
    sanitized_copy k v =
    match v with
    | JStr s =>
        if jstring_eqb k (u "image_data")
        then JStr (image_placeholder (List.length s)) else JStr s
    | _ => scrub v
    end.
Proof.
  induction v as [| b | t | s | items IH | props IH] using json_induction; intro k;
    try (simpl; unfold replacer; destruct (jstring_eqb k (u "image_data")); reflexivity).
  - (* arrays: no index is the key *)
    simpl. f_equal. generalize 0%nat as i.
    induction IH as [|x r Hx _ IHr]; intro i; simpl; [reflexivity|].
    rewrite IHr. f_equal. rewrite Hx.
    unfold decimal. rewrite digits_are_not_image_data. now destruct x.
  - simpl. f_equal.
    induction IH as [|[k' x] r Hx _ IHr]; simpl; [reflexivity|].
    rewrite IHr. f_equal. f_equal. simpl in Hx. rewrite Hx. now destruct x.
Qed.

Lemma sanitized_copy_root (v : json) : sanitized_copy [] v = scrub v.
Proof. rewrite sanitized_copy_scrub. now destruct v. Qed.

(** Only the lengths of the image texts reach the copy. *)
Lemma scrub_blank (c : N) (v : json) : scrub (blank c v) = scrub v.
Proof.
  induction v as [| b | t | s | items IH | props IH] using json_induction;
    try reflexivity.
  - simpl. f_equal.
    induction IH as [|x r Hx _ IHr]; simpl; [reflexivity|]. now rewrite Hx, IHr.
  - simpl. f_equal.
    induction IH as [|[k x] r Hx _ IHr]; [reflexivity|].
    cbn [map fst snd]. f_equal; [|exact IHr]. f_equal. cbn [snd] in Hx.
    destruct x; try exact Hx; try reflexivity.
    destruct (jstring_eqb k (u "image_data")); [|reflexivity].
    now rewrite repeat_length.
Qed.

(** ** [recordApiCall] *)

(** C1 (amended).  For every request and response payload, [recordApiCall]
    completes and stores a record whose request and response are the
    payloads with every text field named [image_data] replaced, at any
    depth, by the placeholder of its length, and everything else kept.  The
    stored copies depend on the image texts through their lengths only
    (overwriting the characters of every image text changes nothing), and
    the length is read back from the placeholder. *)
Theorem recordApiCall_stores_scrubbed_payloads
    (now : jstring) (endpoint method error status : value) (request response : json)
    (w : world) :
  recordApiCall now endpoint method (Some request) (Some response) error status w
  = (Normal tt,
     set_lastApiCall
       (Some (mkApiCall now endpoint method (or_null status) (or_null error)
                (scrub request) (scrub response))) w)
  /\ (forall c, scrub (blank c request) = scrub request
                /\ scrub (blank c response) = scrub response)
  /\ (forall s, replacer (u "image_data") (JStr s) = JStr (image_placeholder (List.length s))
                /\ placeholder_length (image_placeholder (List.length s)) = Some (List.length s)).
Proof.
  split; [|split].
  - unfold recordApiCall, bind, lift, modify, sanitize.
    now rewrite !sanitized_copy_root.
  - intro c. split; apply scrub_blank.
  - intro s. split; [reflexivity|apply placeholder_length_image_placeholder].
Qed.

(** C1, as stated, fails: a recorded placeholder can hold characters of the
    original text, and for the 17-character text "[Image: 17 chars]" the
    placeholder is the original itself, so the payload is stored as it came. *)
Lemma recordApiCall_placeholder_repeats_original :
  let original := u "[Image: 17 chars]" in
  let payload := JObj [(u "image_data", JStr original)] in
  option_map request
    (lastApiCall
       (after (recordApiCall (u "2026-01-01T00:00:00.000Z") (Some (JStr (u "/api/chat")))
                 (Some (JStr (u "POST"))) (Some payload) (Some JNull) None
                 (Some (JNum (u "200"))))
          bare_page))
  = Some payload
  /\ image_placeholder (List.length original) = original
  /\ ~ (forall c, In c original -> ~ In c (image_placeholder (List.length original))).
Proof.
  split; [reflexivity|split; [reflexivity|]].
  intro H. apply (H 91); vm_compute; auto.
Qed.


(** ** Running the module's functions *)

Arguments u : simpl never.
Arguments markup : simpl never.
Arguments decimal : simpl never.

(** Unfolds the monad, the platform calls and the state accessors. *)
Ltac js_unfold :=
  cbv beta iota zeta delta
    [after outcome bind ret throw try_catch lift gets modify
     toast_if_installed writeText console_log debug_log fetch fetch_call fetch_await
     updateDebugModeUI initializeDebugMode copyLastApiCall copyModelList
     openDebugModal closeDebugModal loadDebugInfo loadDebugInfo_begin loadDebugInfo_resume
     fst snd
     debugModal debugInfoContent modelSelectMenuItem debugInfoMenuItem
     lastApiCall lastModelList serverMode enabled defaultPrompt current
     localStorage showToast toasts clipboard fetches console
     set_debugModal set_debugInfoContent set_modelSelectMenuItem set_debugInfoMenuItem
     set_lastApiCall set_lastModelList set_serverMode set_defaultPrompt set_current
     set_localStorage set_toasts set_clipboard set_fetches set_console].

Ltac open_world w :=
  destruct w as [modal content modelItem debugItem call rawList mode verbose
                 prompt chosen store toaster shown copied fetched logged].

Lemma getItem_removeItem (key : jstring) (store : list (jstring * jstring)) :
  getItem key (removeItem key store) = None.
Proof.
  induction store as [|[k x] r IH]; simpl; [reflexivity|].
  destruct (jstring_eqb k key) eqn:E; simpl; [exact IH|].
  now rewrite E.
Qed.

Lemma js_or_bool (b : bool) : js_or (Some (JBool b)) (Some (JBool false)) = Some (JBool b).
Proof. now destruct b. Qed.

(** ** The debug-mode gate *)

(** C10.  With the model-selection item absent from the page and the flag
    false, [updateDebugModeUI] leaves the selected model and the stored
    preferences as they are. *)
Theorem updateDebugModeUI_without_model_item (w : world) :
  modelSelectMenuItem w = None ->
  truthy (serverMode w) = false ->
  outcome updateDebugModeUI w = Normal tt
  /\ current (after updateDebugModeUI w) = current w
  /\ localStorage (after updateDebugModeUI w) = localStorage w.
Proof.
  open_world w. js_unfold. intros -> Hmode.
  destruct debugItem, verbose; js_unfold; rewrite ?Hmode; auto.
Qed.

Lemma updateDebugModeUI_without_model_item_witness :
  let w := set_serverMode (Some (JBool false)) (set_modelSelectMenuItem None app_page) in
  (modelSelectMenuItem w = None /\ truthy (serverMode w) = false)
  /\ outcome updateDebugModeUI w = Normal tt
  /\ current (after updateDebugModeUI w) = current w
  /\ localStorage (after updateDebugModeUI w) = localStorage w.
Proof.
  split; [split; reflexivity|].
  apply updateDebugModeUI_without_model_item; reflexivity.
Defined.

(** C3.  When the configuration arrives with [debug_mode] false and both
    menu items are on the page, both get [display] "none", the selected
    model becomes [null] and the stored preference is gone; with
    [debug_mode] true both get the empty [display] and the stored
    preferences (and the selected model) are untouched. *)
Theorem initializeDebugMode_applies_flag
    (b : bool) (res : Response) (props : list (jstring * json)) (w : world)
    (shown1 shown2 : jstring) :
  ok res = true ->
  body res = Normal (JObj props) ->
  own_property (u "debug_mode") props = Some (JBool b) ->
  modelSelectMenuItem w = Some shown1 ->
  debugInfoMenuItem w = Some shown2 ->
  let w' := after (initializeDebugMode (Responded res)) w in
  outcome (initializeDebugMode (Responded res)) w = Normal tt
  /\ serverMode w' = Some (JBool b)
  /\ if b
     then modelSelectMenuItem w' = Some []
          /\ debugInfoMenuItem w' = Some []
          /\ localStorage w' = localStorage w
          /\ current w' = current w
     else modelSelectMenuItem w' = Some (u "none")
          /\ debugInfoMenuItem w' = Some (u "none")
          /\ current w' = Some JNull
          /\ getItem (u "memo_ai_selected_model") (localStorage w') = None.
Proof.
  open_world w. js_unfold. intros Hok Hbody Hflag -> ->.
  rewrite Hok, Hbody. cbn [negb get]. rewrite Hflag, js_or_bool.
  destruct (truthy (own_property (u "default_system_prompt") props)), verbose, b;
    js_unfold; cbn [truthy]; js_unfold; repeat split; apply getItem_removeItem.
Qed.

Lemma initializeDebugMode_applies_flag_witness :
  let res := mkResponse 200 (u "OK") (Normal (JObj [(u "debug_mode", JBool false)])) in
  (ok res = true
   /\ own_property (u "debug_mode") [(u "debug_mode", JBool false)] = Some (JBool false)
   /\ modelSelectMenuItem app_page = Some []
   /\ debugInfoMenuItem app_page = Some [])
  /\ let w' := after (initializeDebugMode (Responded res)) app_page in
     outcome (initializeDebugMode (Responded res)) app_page = Normal tt
     /\ serverMode w' = Some (JBool false)
     /\ modelSelectMenuItem w' = Some (u "none")
        /\ debugInfoMenuItem w' = Some (u "none")
        /\ current w' = Some JNull
        /\ getItem (u "memo_ai_selected_model") (localStorage w') = None.
Proof.
  split; [repeat split|].
  apply (initializeDebugMode_applies_flag false
           (mkResponse 200 (u "OK") (Normal (JObj [(u "debug_mode", JBool false)])))
           [(u "debug_mode", JBool false)] app_page [] []);
    vm_compute; reflexivity.
Defined.

(** What a failing configuration fetch does, path by path. *)

(** A thrown error (the request rejects, or the body does not parse) sets
    the flag to [false] and applies the gate. *)
Lemma initializeDebugMode_thrown (answer : fetch_outcome) (e : exn) (w : world) :
  answer = Rejected e
  \/ (exists res, answer = Responded res /\ ok res = true /\ body res = Throw e) ->
  initializeDebugMode answer w
  = updateDebugModeUI
      (set_serverMode (Some (JBool false))
         (set_console (console w ++ [u "[DEBUG_MODE] Error fetching config:"])
            (set_fetches (fetches w ++ [u "/api/config"]) w))).
Proof.
  intros [-> | (res & -> & Hok & Hbody)]; open_world w.
  - reflexivity.
  - cbv beta iota zeta delta
      [initializeDebugMode try_catch bind fetch modify ret lift console_log
       set_fetches set_console set_serverMode fetches console].
    rewrite Hok, Hbody. reflexivity.
Qed.

(** A status outside 200-299 only logs a warning: neither the flag nor the
    page is touched. *)
Lemma initializeDebugMode_bad_status (res : Response) (w : world) :
  ok res = false ->
  initializeDebugMode (Responded res) w
  = (Normal tt,
     set_console
       (console w ++ [u "[DEBUG_MODE] Failed to fetch config, assuming debug_mode=false"])
       (set_fetches (fetches w ++ [u "/api/config"]) w)).
Proof.
  intro Hok. open_world w. js_unfold. rewrite Hok. reflexivity.
Qed.

(** C2 (the code departs from it).  On the application's page with debug
    mode on, a configuration fetch answered with status 500 leaves the flag
    true, both menu items shown, the model chosen and its preference
    stored, whereas an explicit [debug_mode: false] and a rejected fetch
    both clear the flag, hide both items and drop the choice. *)
Theorem initializeDebugMode_status_500_skips_gate :
  let failed := after (initializeDebugMode server_error) app_page in
  let refused := after (initializeDebugMode (config_answer false)) app_page in
  let thrown :=
    after (initializeDebugMode (Rejected (TypeError "Failed to fetch"))) app_page in
  (serverMode failed = Some (JBool true)
   /\ modelSelectMenuItem failed = Some []
   /\ debugInfoMenuItem failed = Some []
   /\ current failed = Some (JStr (u "gemini/gemini-2.0-flash"))
   /\ getItem (u "memo_ai_selected_model") (localStorage failed)
      = Some (u "gemini/gemini-2.0-flash"))
  /\ (serverMode refused = Some (JBool false)
      /\ modelSelectMenuItem refused = Some (u "none")
      /\ debugInfoMenuItem refused = Some (u "none")
      /\ current refused = Some JNull
      /\ getItem (u "memo_ai_selected_model") (localStorage refused) = None)
  /\ (serverMode thrown = serverMode refused
      /\ modelSelectMenuItem thrown = modelSelectMenuItem refused
      /\ debugInfoMenuItem thrown = debugInfoMenuItem refused
      /\ current thrown = current refused
      /\ localStorage thrown = localStorage refused).
Proof. vm_compute. repeat split. Qed.

(** ** The modal *)

(** C4 (the code departs from it).  On a page without the modal container,
    opening and closing the modal throw a [TypeError]. *)
Theorem openDebugModal_without_modal_throws :
  debugModal bare_page = None
  /\ outcome openDebugModal bare_page
     = Throw (TypeError "Cannot read properties of null (reading 'classList')")
  /\ outcome closeDebugModal bare_page
     = Throw (TypeError "Cannot read properties of null (reading 'classList')").
Proof. repeat split. Qed.

(** The operations that do guard their element. *)

Lemma loadDebugInfo_without_content (answer : fetch_outcome) (w : world) :
  debugInfoContent w = None -> loadDebugInfo answer w = (Normal tt, w).
Proof. open_world w. js_unfold. now intros ->. Qed.

Lemma renderDebugInfo_without_content (data : json) (w : world) :
  debugInfoContent w = None -> renderDebugInfo data w = (Normal tt, w).
Proof.
  open_world w. unfold renderDebugInfo. js_unfold. now intros ->.
Qed.

Lemma updateDebugModeUI_completes (w : world) : outcome updateDebugModeUI w = Normal tt.
Proof.
  open_world w. js_unfold.
  destruct modelItem, debugItem, (truthy mode) eqn:E, verbose;
    js_unfold; rewrite ?E; reflexivity.
Qed.

Lemma loadDebugInfo_completes (answer : fetch_outcome) (w : world) :
  outcome (loadDebugInfo answer) w = Normal tt.
Proof.
  unfold outcome, loadDebugInfo, bind, gets.
  destruct (debugInfoContent w); [|reflexivity].
  unfold modify, try_catch.
  match goal with |- fst (match ?m with _ => _ end) = _ => destruct m as [[[]|e] w'] end;
    reflexivity.
Qed.

Lemma initializeDebugMode_completes (answer : fetch_outcome) (w : world) :
  outcome (initializeDebugMode answer) w = Normal tt.
Proof.
  unfold outcome, initializeDebugMode, try_catch.
  match goal with
  | |- fst (match ?m with _ => _ end) = _ => destruct m as [[[]|e] w']
  end; [reflexivity|].
  unfold bind at 1, console_log at 1, modify at 1.
  unfold bind at 1, modify at 1.
  apply updateDebugModeUI_completes.
Qed.

(** An [undefined] payload has no JSON text: the recorder throws and the
    slot keeps what it held. *)
Example recordApiCall_undefined_request :
  recordApiCall (u "2026-01-01T00:00:00.000Z") (Some (JStr (u "/api/config")))
    (Some (JStr (u "GET"))) None (Some JNull) None None
    (set_lastApiCall (Some sample_call) bare_page)
  = (Throw (mkExn (u "SyntaxError") (u "Unexpected token u in JSON at position 0")),
     set_lastApiCall (Some sample_call) bare_page).
Proof. reflexivity. Qed.

(** ** [loadDebugInfo] on a failing fetch *)

Lemma error_panel_shape (msg : jstring) :
  exists opening closing,
    error_panel msg = opening ++ msg ++ closing
    /\ occurs_in static_hint closing.
Proof.
  unfold error_panel. eexists. eexists. split; [reflexivity|].
  exists (markup "</p>
                <p class='debug-hint'>
                    "), (markup "
                </p>
            </div>
        ").
  vm_compute. reflexivity.
Qed.

(** C5.  When the render target is on the page and the fetch of the debug
    endpoint fails (the request rejects, the status is outside 200-299, or
    the body does not parse), [loadDebugInfo] completes with the target's
    content being exactly the error panel built around the error message
    (for a bad status, "HTTP", the status code and the status text), which
    carries the static hint; nothing of the previous content is left, and
    one fetch, of the debug endpoint, has been issued. *)
Theorem loadDebugInfo_failure_shows_error_panel
    (answer : fetch_outcome) (msg previous : jstring) (w : world) :
  debugInfoContent w = Some previous ->
  failure_message answer = Some msg ->
  loadDebugInfo answer w
  = (Normal tt,
     set_debugInfoContent (Some (error_panel msg))
       (set_fetches (fetches w ++ [u "/api/debug5075378"]) w))
  /\ occurs_in msg (error_panel msg)
  /\ occurs_in static_hint (error_panel msg)
  /\ (forall res, answer = Responded res -> ok res = false ->
        msg = u "HTTP " ++ decimal (http_status res) ++ u ": " ++ statusText res).
Proof.
  intros Hcontent Hfail. split; [|split; [|split]].
  - open_world w. cbn [debugInfoContent] in Hcontent. subst content.
    destruct answer as [e | res]; cbn [failure_message] in Hfail.
    + injection Hfail as <-. reflexivity.
    + js_unfold. destruct (ok res); cbn [negb].
      * destruct (body res) as [data | e]; [discriminate|].
        injection Hfail as <-. reflexivity.
      * injection Hfail as <-. reflexivity.
  - destruct (error_panel_shape msg) as (opening & closing & -> & _).
    now exists opening, closing.
  - destruct (error_panel_shape msg) as (opening & closing & -> & before & rest & ->).
    exists (opening ++ msg ++ before), rest. now rewrite <- !app_assoc.
  - intros res -> Hok. cbn [failure_message] in Hfail. rewrite Hok in Hfail.
    now injection Hfail as <-.
Qed.

Lemma loadDebugInfo_failure_shows_error_panel_witness :
  (debugInfoContent app_page = Some []
   /\ failure_message server_error = Some (u "HTTP 500: Internal Server Error"))
  /\ loadDebugInfo server_error app_page
     = (Normal tt,
        set_debugInfoContent (Some (error_panel (u "HTTP 500: Internal Server Error")))
          (set_fetches (fetches app_page ++ [u "/api/debug5075378"]) app_page))
  /\ occurs_in (u "HTTP 500: Internal Server Error")
       (error_panel (u "HTTP 500: Internal Server Error"))
  /\ occurs_in static_hint (error_panel (u "HTTP 500: Internal Server Error"))
  /\ (forall res, server_error = Responded res -> ok res = false ->
        u "HTTP 500: Internal Server Error"
        = u "HTTP " ++ decimal (http_status res) ++ u ": " ++ statusText res).
Proof.
  split; [split; vm_compute; reflexivity|].
  apply (loadDebugInfo_failure_shows_error_panel server_error
           (u "HTTP 500: Internal Server Error") [] app_page);
    vm_compute; reflexivity.
Defined.

(** ** The clipboard exports *)

(** C6 (amended).  With the last-call slot empty, [copyLastApiCall]
    completes whatever the platform's clipboard is, writes nothing to it,
    leaves the slot empty, and shows the nothing-to-copy message when
    [window.showToast] is installed (and nothing when it is not).  With the
    slot holding a record, on a page that has the Clipboard API and whether
    the write resolves or rejects, it completes having issued one clipboard
    write, of the banner line followed by the record's
    [JSON.stringify(..., null, 2)] text, and keeps the record. *)
Theorem copyLastApiCall_exports_record
    (answer : clipboard_outcome) (written : bool) (w : world) :
  match lastApiCall w with
  | None =>
      let w' := after (copyLastApiCall answer) w in
      outcome (copyLastApiCall answer) w = Normal tt
      /\ lastApiCall w' = None
      /\ clipboard w' = clipboard w
      /\ toasts w' = if showToast w
                     then toasts w ++ [u "コピーする履歴がありません"]
                     else toasts w
  | Some c =>
      let w' := after (copyLastApiCall (Settles written)) w in
      outcome (copyLastApiCall (Settles written)) w = Normal tt
      /\ lastApiCall w' = Some c
      /\ clipboard w'
         = clipboard w
             ++ [u "=== Memo AI Debug ===" ++ newline ++ serialize [] (json_of_call c)]
  end.
Proof.
  open_world w. js_unfold.
  destruct call as [c|], toaster, written; js_unfold; repeat split;
    unfold banner; now rewrite <- app_assoc.
Qed.

(** C6, as stated, fails where no [window.showToast] is installed: the
    export of an empty slot then shows nothing. *)
Lemma copyLastApiCall_empty_without_toast :
  lastApiCall bare_page = None
  /\ showToast bare_page = false
  /\ copyLastApiCall (Settles true) bare_page = (Normal tt, bare_page)
  /\ toasts (after (copyLastApiCall (Settles true)) bare_page) = [].
Proof. repeat split. Qed.

(** On a page without the Clipboard API, the export of a populated slot
    throws at [navigator.clipboard.writeText]: nothing is written and no
    message is shown, [window.showToast] being installed or not. *)
Example copyModelList_without_clipboard :
  showToast app_page = true
  /\ copyModelList NoClipboard (set_lastModelList (Some (JArr [])) app_page)
     = (Throw (TypeError "Cannot read properties of undefined (reading 'writeText')"),
        set_lastModelList (Some (JArr [])) app_page).
Proof. split; vm_compute; reflexivity. Qed.


(** ** [renderDebugInfo] on a debug snapshot *)

Lemma bind_normal {A B : Type} (m : M A) (f : A -> M B) (a : A) (w w' : world) :
  m w = (Normal a, w') -> bind m f w = f a w'.
Proof. intro H. unfold bind. now rewrite H. Qed.

Lemma snapshot_fields (d : DebugSnapshot) :
  get (Some (json_of_snapshot d)) "timestamp" = Normal (option_map JStr (snapshot_timestamp d))
  /\ get (Some (json_of_snapshot d)) "cors" = Normal (option_map json_of_cors (cors d))
  /\ get (Some (json_of_snapshot d)) "environment"
     = Normal (option_map json_of_map (environment d))
  /\ get (Some (json_of_snapshot d)) "env_vars" = Normal (option_map json_of_map (env_vars d))
  /\ get (Some (json_of_snapshot d)) "models" = Normal (option_map json_of_models (models d)).
Proof.
  destruct d as [[stamp|] [c|] [env|] [vars|] [m|]]; repeat split; reflexivity.
Qed.

Lemma cors_fields (c : CorsInfo) :
  get (Some (json_of_cors c)) "allowed_origins"
  = Normal (Some (JArr (map JStr (allowed_origins c))))
  /\ get (Some (json_of_cors c)) "is_restricted" = Normal (Some (JBool (is_restricted c)))
  /\ get (Some (json_of_cors c)) "detected_platform"
     = Normal (option_map JStr (detected_platform c)).
Proof. destruct c as [origins restricted [platform|]]; repeat split; reflexivity. Qed.

Lemma join_from_strings (sep : jstring) (l : list jstring) :
  join_from sep false (map JStr l) = Normal (List.concat (map (fun x => sep ++ x) l)).
Proof.
  induction l as [|x r IH]; [reflexivity|].
  cbn [map join_from join_item ToString_json]. rewrite IH.
  cbn [List.concat]. now rewrite <- app_assoc.
Qed.

Lemma join_text_cons (sep x : jstring) (r : list jstring) :
  join_text sep (x :: r) = x ++ List.concat (map (fun y => sep ++ y) r).
Proof.
  revert x. induction r as [|y r IH]; intro x.
  - simpl. now rewrite app_nil_r.
  - change (join_text sep (x :: y :: r)) with (x ++ sep ++ join_text sep (y :: r)).
    rewrite IH. cbn [map List.concat]. now rewrite <- app_assoc.
Qed.

(** [join] on an array of texts puts the separator between them. *)
Lemma call_join_strings (sep : jstring) (l : list jstring) :
  call_join (Some (JArr (map JStr l))) sep = Normal (join_text sep l).
Proof.
  destruct l as [|x r]; [reflexivity|].
  cbn [call_join array_join map join_from join_item ToString_json].
  now rewrite join_from_strings, join_text_cons.
Qed.

Lemma truthy_text (s : jstring) : truthy (Some (JStr s)) = nonempty s.
Proof. now destruct s. Qed.

Lemma ToString_scalar (x : scalar) :
  ToString (Some (json_of_scalar x)) = Normal (text_of_scalar x).
Proof. destruct x as [|[|]| |]; reflexivity. Qed.

Lemma for_of_items {A : Type} (enc : A -> jstring * json) (item : A -> jstring)
    (body : jstring -> json -> jstring -> M jstring) :
  (forall a html w, body (fst (enc a)) (snd (enc a)) html w = (Normal (html ++ item a), w)) ->
  forall l html w,
    for_of (map enc l) body html w = (Normal (html ++ List.concat (map item l)), w).
Proof.
  intros Hbody l. induction l as [|a r IH]; intros html w.
  - simpl. unfold ret. now rewrite app_nil_r.
  - cbn [map for_of]. destruct (enc a) as [k x] eqn:E.
    erewrite bind_normal.
    2:{ specialize (Hbody a html w). rewrite E in Hbody. exact Hbody. }
    rewrite IH. cbn [List.concat]. now rewrite <- app_assoc.
Qed.

Section Snapshot.
Variable d : DebugSnapshot.
Lemma render_timestamp_snapshot (w : world) :
  render_timestamp (json_of_snapshot d) w = (Normal (timestamp_line d), w).
Proof.
  unfold render_timestamp, bind, lift.
  destruct (snapshot_fields d) as (-> & _).
  unfold timestamp_line.
  destruct (snapshot_timestamp d) as [[|c t]|]; reflexivity.
Qed.

Lemma render_cors_snapshot (html : jstring) (w : world) :
  render_cors (json_of_snapshot d) html w
  = (Normal (html ++ match cors d with Some c => cors_section c | None => [] end), w).
Proof.
  unfold render_cors, bind, lift.
  destruct (snapshot_fields d) as (_ & -> & _).
  destruct (cors d) as [c|]; cbn [option_map].
  - change (truthy (Some (json_of_cors c))) with true. cbv iota.
    destruct (cors_fields c) as (-> & -> & ->).
    rewrite call_join_strings.
    unfold cors_section, ret, restricted_label, unrestricted_label.
    destruct (is_restricted c), (detected_platform c) as [[|x p]|];
      cbn [option_map truthy jstring_eqb negb nonempty ToString ToString_json app];
      rewrite <- ?app_assoc; reflexivity.
  - unfold ret. cbn [truthy]. now rewrite app_nil_r.
Qed.

Lemma render_last_call_snapshot (html : jstring) (w : world) :
  render_last_call html w = (Normal (html ++ last_call_section (lastApiCall w)), w).
Proof.
  unfold render_last_call, bind, gets, ret, last_call_section, json_block.
  destruct (lastApiCall w); rewrite <- ?app_assoc; reflexivity.
Qed.

Lemma render_environment_snapshot (html : jstring) (w : world) :
  render_environment (json_of_snapshot d) html w
  = (Normal (html ++ environment_section (environment d)), w).
Proof.
  unfold render_environment, bind at 1, lift at 1.
  destruct (snapshot_fields d) as (_ & _ & -> & _).
  assert (Hpairs :
    entries (js_or (option_map json_of_map (environment d)) (Some (JObj [])))
    = Normal (map (fun kv => (fst kv, json_of_scalar (snd kv)))
                (match environment d with Some l => l | None => [] end)))
    by (destruct (environment d); reflexivity).
  unfold bind at 1, lift at 1. rewrite Hpairs.
  erewrite bind_normal.
  2:{ apply (for_of_items _ environment_item). intros [k x] h w0.
      unfold bind, lift. cbn [fst snd]. rewrite ToString_scalar.
      unfold ret, environment_item. cbn [fst snd]. reflexivity. }
  unfold ret, environment_section. now rewrite <- !app_assoc.
Qed.

Lemma render_env_vars_snapshot (html : jstring) (w : world) :
  render_env_vars (json_of_snapshot d) html w = (Normal (html ++ env_vars_section (env_vars d)), w).
Proof.
  unfold render_env_vars, bind at 1, lift at 1.
  destruct (snapshot_fields d) as (_ & _ & _ & -> & _).
  destruct (env_vars d) as [vars|]; cbn [option_map].
  - change (truthy (Some (json_of_map vars))) with true. cbv iota.
    unfold bind at 1, lift at 1. cbn [entries json_of_map].
    erewrite bind_normal.
    2:{ apply (for_of_items _ env_var_item). intros [k x] h w0.
        unfold bind, lift, js_or, env_var_item. cbn [fst snd].
        destruct (truthy (Some (json_of_scalar x))).
        - rewrite ToString_scalar. reflexivity.
        - reflexivity. }
    unfold ret, env_vars_section. now rewrite <- !app_assoc.
  - cbn [truthy]. unfold ret. now rewrite app_nil_r.
Qed.

Lemma render_models_snapshot (html : jstring) (w : world) :
  render_models (json_of_snapshot d) html w
  = (Normal (html ++ models_section (models d)),
     match models d with
     | Some m => set_lastModelList (Some (JArr (raw_list m))) w
     | None => w
     end).
Proof.
  unfold render_models, bind at 1, lift at 1.
  destruct (snapshot_fields d) as (_ & _ & _ & _ & ->).
  destruct (models d) as [m|]; cbn [option_map].
  - change (truthy (Some (json_of_models m))) with true. cbv iota.
    change (get (Some (json_of_models m)) "raw_list")
      with (@Normal value (Some (JArr (raw_list m)))).
    change (get (Some (json_of_models m)) "recommended_count")
      with (@Normal value (Some (JNum (decimal (recommended_count m))))).
    change (get (Some (json_of_models m)) "total_count")
      with (@Normal value (Some (JNum (decimal (total_count m))))).
    unfold bind, lift, modify, ret, models_section, json_block.
    cbn [ToString ToString_json JSON_stringify].
    rewrite <- !app_assoc. reflexivity.
  - cbn [truthy]. unfold ret. now rewrite app_nil_r.
Qed.

(** Rendering a snapshot on a page with the render target: the target
    holds the page, section after section, and the raw model list is
    kept. *)
Lemma renderDebugInfo_snapshot (previous : jstring) (w : world) :
  debugInfoContent w = Some previous ->
  renderDebugInfo (json_of_snapshot d) w
  = (Normal tt,
     set_debugInfoContent (Some (page d (lastApiCall w)))
       (match models d with
        | Some m => set_lastModelList (Some (JArr (raw_list m))) w
        | None => w
        end)).
Proof.
  intro Hcontent. unfold renderDebugInfo, bind at 1, gets at 1. rewrite Hcontent.
  erewrite bind_normal by apply render_timestamp_snapshot.
  erewrite bind_normal by apply render_cors_snapshot.
  erewrite bind_normal by apply render_last_call_snapshot.
  erewrite bind_normal by apply render_environment_snapshot.
  erewrite bind_normal by apply render_env_vars_snapshot.
  erewrite bind_normal by apply render_models_snapshot.
  unfold modify, page. now rewrite <- !app_assoc.
Qed.
End Snapshot.

(** [loadDebugInfo] when the endpoint answers with a snapshot. *)
Lemma loadDebugInfo_snapshot
    (d : DebugSnapshot) (res : Response) (previous : jstring) (w : world) :
  debugInfoContent w = Some previous ->
  ok res = true ->
  body res = Normal (json_of_snapshot d) ->
  loadDebugInfo (Responded res) w
  = (Normal tt,
     set_debugInfoContent (Some (page d (lastApiCall w)))
       (match models d with
        | Some m =>
            set_lastModelList (Some (JArr (raw_list m)))
              (set_fetches (fetches w ++ [u "/api/debug5075378"]) w)
        | None => set_fetches (fetches w ++ [u "/api/debug5075378"]) w
        end)).
Proof.
  intros Hcontent Hok Hbody.
  unfold loadDebugInfo, bind at 1, gets at 1. rewrite Hcontent.
  unfold bind at 1, modify at 1, try_catch, bind at 1, fetch, bind at 1, modify at 1, ret at 1.
  rewrite Hok. cbn [negb]. unfold bind at 1, lift at 1. rewrite Hbody.
  erewrite renderDebugInfo_snapshot by reflexivity.
  open_world w. destruct (models d); reflexivity.
Qed.

Lemma occurs_in_context (needle text before rest : jstring) :
  occurs_in needle text -> occurs_in needle (before ++ text ++ rest).
Proof.
  intros (b & r & ->). exists (before ++ b), (r ++ rest).
  now rewrite <- !app_assoc.
Qed.

Lemma occurs_in_separated (sep x : jstring) (l : list jstring) :
  In x l -> occurs_in x (List.concat (map (fun y => sep ++ y) l)).
Proof.
  induction l as [|y r IH]; intros Hin; [destruct Hin|].
  cbn [map List.concat]. destruct Hin as [-> | Hin].
  - exists sep, (List.concat (map (fun y => sep ++ y) r)). now rewrite <- app_assoc.
  - specialize (IH Hin). apply (occurs_in_context _ _ (sep ++ y) []) in IH.
    now rewrite app_nil_r in IH.
Qed.

Lemma occurs_in_join_text (sep x : jstring) (l : list jstring) :
  In x l -> occurs_in x (join_text sep l).
Proof.
  destruct l as [|y r]; intros Hin; [destruct Hin|].
  rewrite join_text_cons. destruct Hin as [-> | Hin].
  - now exists [], (List.concat (map (fun y => sep ++ y) r)).
  - apply (occurs_in_separated sep) in Hin.
    apply (occurs_in_context _ _ y []) in Hin. now rewrite app_nil_r in Hin.
Qed.

Lemma escape_lt_has_no_lt (text : jstring) : ~ In lt_sign (escape_lt text).
Proof.
  unfold escape_lt. intro Hin. apply in_flat_map in Hin as (c & _ & Hc).
  destruct (c =? lt_sign) eqn:E.
  - vm_compute in Hc. intuition discriminate.
  - destruct Hc as [-> | []]. now rewrite N.eqb_refl in E.
Qed.

Lemma labels_differ : restricted_label <> unrestricted_label.
Proof. intro H. vm_compute in H. discriminate H. Qed.

(** C7.  Rendering a debug snapshot on a page with the render target: when
    the snapshot has no [cors] field the page goes from the timestamp line
    straight to the API-call section; when it has one, the CORS section
    stands between them, showing the allowed origins joined by ", " (so
    each origin occurs in it) and, for the restriction flag, one of two
    distinct fixed labels: the one for [true] when it is set, the one for
    [false] otherwise. *)
Theorem renderDebugInfo_cors_section
    (d : DebugSnapshot) (previous : jstring) (w : world) :
  debugInfoContent w = Some previous ->
  let shown := debugInfoContent (after (renderDebugInfo (json_of_snapshot d)) w) in
  let rest :=
    last_call_section (lastApiCall w) ++ environment_section (environment d)
      ++ env_vars_section (env_vars d) ++ models_section (models d) in
  outcome (renderDebugInfo (json_of_snapshot d)) w = Normal tt
  /\ restricted_label <> unrestricted_label
  /\ match cors d with
     | None => shown = Some (timestamp_line d ++ rest)
     | Some c =>
         shown = Some (timestamp_line d ++ cors_section c ++ rest)
         /\ occurs_in
              (markup "<code class='debug-value'>" ++ join_text (u ", ") (allowed_origins c)
                 ++ markup "</code></div>")
              (cors_section c)
         /\ (forall origin, In origin (allowed_origins c) -> occurs_in origin (cors_section c))
         /\ occurs_in
              (markup "<span class='debug-value'>"
                 ++ (if is_restricted c then restricted_label else unrestricted_label)
                 ++ markup "</span></div>")
              (cors_section c)
     end.
Proof.
  intros Hcontent shown rest. subst shown rest. unfold after, outcome.
  rewrite (renderDebugInfo_snapshot d previous w Hcontent).
  split; [reflexivity|]. split; [exact labels_differ|].
  open_world w. cbn [fst snd set_debugInfoContent debugInfoContent lastApiCall].
  unfold page. destruct (cors d) as [c|]; [|now rewrite app_nil_l].
  split; [reflexivity|]. unfold cors_section.
  set (platform := match detected_platform c with Some _ => _ | None => _ end).
  assert (Horigins :
    markup "<div class='debug-item'><span class='debug-label'>許可オリジン:</span><code class='debug-value'>"
    = markup "<div class='debug-item'><span class='debug-label'>許可オリジン:</span>"
        ++ markup "<code class='debug-value'>") by (vm_compute; reflexivity).
  assert (Hmode :
    markup "<div class='debug-item'><span class='debug-label'>制限モード:</span><span class='debug-value'>"
    = markup "<div class='debug-item'><span class='debug-label'>制限モード:</span>"
        ++ markup "<span class='debug-value'>") by (vm_compute; reflexivity).
  split; [|split].
  - rewrite Horigins.
    exists (markup "<div class='debug-section'>"
              ++ markup "<h3>🔐 CORS設定</h3><div class='debug-grid'>"
              ++ markup "<div class='debug-item'><span class='debug-label'>許可オリジン:</span>").
    eexists. rewrite <- !app_assoc. reflexivity.
  - intros origin Hin. apply (occurs_in_join_text (u ", ")) in Hin.
    destruct Hin as (b & r & ->).
    exists (markup "<div class='debug-section'>"
              ++ markup "<h3>🔐 CORS設定</h3><div class='debug-grid'>"
              ++ markup "<div class='debug-item'><span class='debug-label'>許可オリジン:</span><code class='debug-value'>"
              ++ b).
    eexists. rewrite <- !app_assoc. reflexivity.
  - rewrite Hmode.
    exists (markup "<div class='debug-section'>"
              ++ markup "<h3>🔐 CORS設定</h3><div class='debug-grid'>"
              ++ markup "<div class='debug-item'><span class='debug-label'>許可オリジン:</span><code class='debug-value'>"
              ++ join_text (u ", ") (allowed_origins c)
              ++ markup "</code></div>"
              ++ markup "<div class='debug-item'><span class='debug-label'>制限モード:</span>").
    eexists. rewrite <- !app_assoc. reflexivity.
Qed.

Lemma renderDebugInfo_cors_section_witness :
  (debugInfoContent app_page = Some [])
  /\ outcome (renderDebugInfo (json_of_snapshot sample_snapshot)) app_page = Normal tt
  /\ restricted_label <> unrestricted_label.
Proof.
  split; [reflexivity|].
  destruct (renderDebugInfo_cors_section sample_snapshot [] app_page eq_refl)
    as (Hdone & Hlabels & _).
  exact (conj Hdone Hlabels).
Defined.

(** C8.  In the page rendered from a debug snapshot, the recorded API call
    (when there is one) and the raw model list (when the snapshot has a
    model catalog) stand in [pre] blocks holding their
    [JSON.stringify(..., null, 2)] text with every "<" replaced by "&lt;":
    no "<" is left inside either block. *)
Theorem renderDebugInfo_escapes_json_blocks
    (d : DebugSnapshot) (previous : jstring) (w : world) :
  debugInfoContent w = Some previous ->
  let shown := debugInfoContent (after (renderDebugInfo (json_of_snapshot d)) w) in
  shown = Some (page d (lastApiCall w))
  /\ (forall c, lastApiCall w = Some c ->
        let block := escape_lt (serialize [] (json_of_call c)) in
        ~ In lt_sign block
        /\ exists before rest,
             shown = Some (before ++ markup "<pre class='debug-code'>" ++ block
                             ++ markup "</pre>" ++ rest))
  /\ (forall m, models d = Some m ->
        let block := escape_lt (serialize [] (JArr (raw_list m))) in
        ~ In lt_sign block
        /\ exists before rest,
             shown = Some (before
                             ++ markup "<pre class='debug-code' style='max-height: 400px; overflow: auto; margin-top: 8px;'>"
                             ++ block ++ markup "</pre>" ++ rest))
  /\ (forall text,
        escape_lt text
        = flat_map (fun c => if c =? lt_sign then u "&lt;" else [c]) text).
Proof.
  intros Hcontent shown. subst shown. unfold after.
  rewrite (renderDebugInfo_snapshot d previous w Hcontent).
  assert (Hshown :
    debugInfoContent
      (snd (@Normal unit tt,
            set_debugInfoContent (Some (page d (lastApiCall w)))
              match models d with
              | Some m => set_lastModelList (Some (JArr (raw_list m))) w
              | None => w
              end))
    = Some (page d (lastApiCall w))) by (open_world w; reflexivity).
  rewrite Hshown. split; [reflexivity|]. split; [|split].
  - intros c Hcall. split; [apply escape_lt_has_no_lt|].
    rewrite Hcall. unfold page, last_call_section, json_block.
    rewrite <- !app_assoc. do 3 rewrite app_assoc.
    eexists. eexists. reflexivity.
  - intros m Hmodels. split; [apply escape_lt_has_no_lt|].
    unfold page. rewrite Hmodels. unfold models_section, json_block.
    rewrite <- !app_assoc. do 12 rewrite app_assoc.
    eexists. eexists. reflexivity.
  - reflexivity.
Qed.

Lemma renderDebugInfo_escapes_json_blocks_witness :
  let w := set_lastApiCall (Some sample_call) app_page in
  debugInfoContent w = Some []
  /\ debugInfoContent (after (renderDebugInfo (json_of_snapshot sample_snapshot)) w)
     = Some (page sample_snapshot (lastApiCall w)).
Proof.
  split; [reflexivity|].
  exact (proj1 (renderDebugInfo_escapes_json_blocks sample_snapshot []
                  (set_lastApiCall (Some sample_call) app_page) eq_refl)).
Defined.

(** ** The model list export *)





(** * Further properties of the module *)

(** ** How the rendering blocks run on any data *)

(** Splits on the completions and tests a run depends on. *)
Ltac split_runs :=
  repeat (cbv beta iota zeta delta [bind lift ret gets modify throw];
          match goal with
          | |- context [match ?c with Normal _ => _ | Throw _ => _ end] => destruct c
          | |- context [if ?b then _ else _] => destruct b
          | |- context [match ?o with Some _ => _ | None => _ end] => destruct o
          end).

Lemma appends_for_of (body : jstring -> json -> jstring -> M jstring) :
  (forall key value html, appends html (body key value html)) ->
  forall l html, appends html (for_of l body html).
Proof.
  intros Hbody l. induction l as [|[key value] r IH]; intros html w.
  - exists (Normal html). split; [reflexivity|].
    intros a [= <-]. exists []. symmetry. apply app_nil_r.
  - cbn [for_of]. unfold bind.
    destruct (Hbody key value html w) as (c & -> & Hc). destruct c as [a|e].
    + destruct (Hc a eq_refl) as [rest ->].
      destruct (IH (html ++ rest) w) as (c & -> & Hc'). exists c. split; [reflexivity|].
      intros b ->. destruct (Hc' b eq_refl) as [rest' ->].
      exists (rest ++ rest'). now rewrite app_assoc.
    + exists (Throw e). split; [reflexivity|]. discriminate.
Qed.

Ltac close_appends :=
  eexists; split; [reflexivity|];
  first [ discriminate
        | intros ? [= <-]; rewrite <- ?app_assoc;
          first [ eexists; reflexivity | exists []; symmetry; apply app_nil_r ] ].

Lemma appends_render_cors (data : json) (html : jstring) :
  appends html (render_cors data html).
Proof. unfold render_cors. intro w. split_runs; close_appends. Qed.

Lemma appends_render_last_call (html : jstring) : appends html (render_last_call html).
Proof. unfold render_last_call. intro w. split_runs; close_appends. Qed.

Lemma appends_render_environment (data : json) (html : jstring) :
  appends html (render_environment data html).
Proof.
  unfold render_environment. intro w.
  cbv beta iota zeta delta [bind lift].
  destruct (get (Some data) "environment") as [environment|e]; [|close_appends].
  destruct (entries _) as [pairs|e]; [|close_appends].
  match goal with
  | |- context [for_of pairs ?body ?h w] =>
      destruct (appends_for_of body) with (l := pairs) (html := h) (w := w)
        as (c & -> & Hc)
  end.
  - intros key value h w0. split_runs; close_appends.
  - destruct c as [a|e]; [|close_appends].
    destruct (Hc a eq_refl) as [rest ->]. unfold ret. close_appends.
Qed.

Lemma appends_render_env_vars (data : json) (html : jstring) :
  appends html (render_env_vars data html).
Proof.
  unfold render_env_vars. intro w.
  cbv beta iota zeta delta [bind lift].
  destruct (get (Some data) "env_vars") as [env_vars|e]; [|close_appends].
  destruct (truthy env_vars); [|unfold ret; close_appends].
  destruct (entries _) as [pairs|e]; [|close_appends].
  match goal with
  | |- context [for_of pairs ?body ?h w] =>
      destruct (appends_for_of body) with (l := pairs) (html := h) (w := w)
        as (c & -> & Hc)
  end.
  - intros key value h w0. split_runs; close_appends.
  - destruct c as [a|e]; [|close_appends].
    destruct (Hc a eq_refl) as [rest ->]. unfold ret. close_appends.
Qed.

Lemma render_timestamp_run (data : json) (w : world) :
  exists c,
    render_timestamp data w = (c, w)
    /\ forall a, c = Normal a ->
         exists rest, a = markup "<div class='debug-timestamp'>取得時刻: " ++ rest.
Proof.
  unfold render_timestamp. split_runs; eexists; (split; [reflexivity|]);
    first [discriminate | intros ? [= <-]; eexists; reflexivity].
Qed.

Lemma render_models_run (data : json) (html : jstring) (w : world) :
  exists c w',
    render_models data html w = (c, w')
    /\ (w' = w \/ exists x, w' = set_lastModelList x w)
    /\ forall a, c = Normal a -> exists rest, a = html ++ rest.
Proof.
  unfold render_models. split_runs; eexists; eexists;
    (split; [reflexivity|]);
    (split; [first [left; reflexivity | right; eexists; reflexivity]|]);
    first [ discriminate
          | intros ? [= <-]; rewrite <- ?app_assoc;
            first [ eexists; reflexivity | exists []; symmetry; apply app_nil_r ] ].
Qed.

(** A run of [renderDebugInfo] on a page with the render target, whatever
    the data: up to the last statement only the model-list slot may have
    changed; the run either throws there, or ends by giving the target a
    page that opens with the timestamp line. *)
Lemma renderDebugInfo_run (data : json) (previous : jstring) (w : world) :
  debugInfoContent w = Some previous ->
  exists c w' w2,
    renderDebugInfo data w = (c, w')
    /\ (w2 = w \/ exists x, w2 = set_lastModelList x w)
    /\ match c with
       | Throw _ => w' = w2
       | Normal _ =>
           exists rest,
             w' = set_debugInfoContent
                    (Some (markup "<div class='debug-timestamp'>取得時刻: " ++ rest)) w2
       end.
Proof.
  intro Hcontent. destruct (renderDebugInfo data w) as [c w'] eqn:Hrun.
  exists c, w'. unfold renderDebugInfo, bind at 1, gets at 1 in Hrun.
  rewrite Hcontent in Hrun. unfold bind at 1 in Hrun.
  destruct (render_timestamp_run data w) as (c0 & Hb & Hc). rewrite Hb in Hrun.
  destruct c0 as [h0|e];
    [|injection Hrun as <- <-; exists w; split; [reflexivity|split; [now left|reflexivity]]].
  destruct (Hc h0 eq_refl) as [r0 ->]. clear Hb Hc. unfold bind at 1 in Hrun.
  match type of Hrun with
  | context [render_cors data ?h w] =>
      destruct (appends_render_cors data h w) as (c1 & Hb & Hc)
  end.
  rewrite Hb in Hrun.
  destruct c1 as [h1|e];
    [|injection Hrun as <- <-; exists w; split; [reflexivity|split; [now left|reflexivity]]].
  destruct (Hc h1 eq_refl) as [r1 ->]. clear Hb Hc. unfold bind at 1 in Hrun.
  match type of Hrun with
  | context [render_last_call ?h w] =>
      destruct (appends_render_last_call h w) as (c2 & Hb & Hc)
  end.
  rewrite Hb in Hrun.
  destruct c2 as [h2|e];
    [|injection Hrun as <- <-; exists w; split; [reflexivity|split; [now left|reflexivity]]].
  destruct (Hc h2 eq_refl) as [r2 ->]. clear Hb Hc. unfold bind at 1 in Hrun.
  match type of Hrun with
  | context [render_environment data ?h w] =>
      destruct (appends_render_environment data h w) as (c3 & Hb & Hc)
  end.
  rewrite Hb in Hrun.
  destruct c3 as [h3|e];
    [|injection Hrun as <- <-; exists w; split; [reflexivity|split; [now left|reflexivity]]].
  destruct (Hc h3 eq_refl) as [r3 ->]. clear Hb Hc. unfold bind at 1 in Hrun.
  match type of Hrun with
  | context [render_env_vars data ?h w] =>
      destruct (appends_render_env_vars data h w) as (c4 & Hb & Hc)
  end.
  rewrite Hb in Hrun.
  destruct c4 as [h4|e];
    [|injection Hrun as <- <-; exists w; split; [reflexivity|split; [now left|reflexivity]]].
  destruct (Hc h4 eq_refl) as [r4 ->]. clear Hb Hc. unfold bind at 1 in Hrun.
  match type of Hrun with
  | context [render_models data ?h w] =>
      destruct (render_models_run data h w) as (c5 & w2 & Hb & Hw2 & Hc)
  end.
  rewrite Hb in Hrun. exists w2. split; [reflexivity|]. split; [exact Hw2|].
  destruct c5 as [h5|e]; [|now injection Hrun as <- <-].
  destruct (Hc h5 eq_refl) as [r5 ->]. unfold modify in Hrun.
  injection Hrun as <- <-.
  exists (r0 ++ r1 ++ r2 ++ r3 ++ r4 ++ r5). now rewrite <- !app_assoc.
Qed.

(** A run of [loadDebugInfo] on a page with the render target, whatever
    the fetch answers. *)
Lemma loadDebugInfo_run (answer : fetch_outcome) (previous : jstring) (w : world) :
  debugInfoContent w = Some previous ->
  exists shown w2,
    loadDebugInfo answer w = (Normal tt, set_debugInfoContent (Some shown) w2)
    /\ (w2 = set_fetches (fetches w ++ [u "/api/debug5075378"]) w
        \/ exists x,
             w2 = set_lastModelList x
                    (set_fetches (fetches w ++ [u "/api/debug5075378"]) w))
    /\ ((exists msg, shown = error_panel msg)
        \/ exists rest, shown = markup "<div class='debug-timestamp'>取得時刻: " ++ rest).
Proof.
  intro Hcontent. unfold loadDebugInfo, bind at 1, gets at 1. rewrite Hcontent.
  unfold bind at 1, modify at 1, try_catch, bind at 1, fetch, bind at 1, modify at 1.
  set (w1 := set_fetches _ _).
  assert (Hw1 : forall h,
            set_debugInfoContent (Some h) w1
            = set_debugInfoContent (Some h)
                (set_fetches (fetches w ++ [u "/api/debug5075378"]) w))
    by (intro; subst w1; open_world w; reflexivity).
  assert (Hw1' : forall h x,
            set_debugInfoContent (Some h) (set_lastModelList x w1)
            = set_debugInfoContent (Some h)
                (set_lastModelList x
                   (set_fetches (fetches w ++ [u "/api/debug5075378"]) w)))
    by (intros; subst w1; open_world w; reflexivity).
  assert (Hc1 : debugInfoContent w1 = Some loading_indicator)
    by (subst w1; open_world w; reflexivity).
  clearbody w1.
  destruct answer as [e|res].
  - unfold throw, modify. rewrite Hw1. eexists; eexists. split; [reflexivity|].
    split; [now left|]. left. now eexists.
  - unfold ret at 1. destruct (ok res); cbn [negb].
    + unfold bind at 1, lift at 1. destruct (body res) as [data|e].
      * destruct (renderDebugInfo_run data loading_indicator w1 Hc1)
          as (c & w' & w2 & -> & Hw2 & Hc).
        destruct c as [[]|e].
        -- destruct Hc as [rest ->].
           destruct Hw2 as [-> | [x ->]].
           ++ rewrite Hw1. eexists; eexists. split; [reflexivity|].
              split; [now left|]. right. now eexists.
           ++ rewrite Hw1'. eexists; eexists. split; [reflexivity|].
              split; [right; now eexists|]. right. now eexists.
        -- subst w'. unfold modify. destruct Hw2 as [-> | [x ->]].
           ++ rewrite Hw1. eexists; eexists. split; [reflexivity|].
              split; [now left|]. left. now eexists.
           ++ rewrite Hw1'. eexists; eexists. split; [reflexivity|].
              split; [right; now eexists|]. left. now eexists.
      * unfold modify. rewrite Hw1. eexists; eexists. split; [reflexivity|].
        split; [now left|]. left. now eexists.
    + unfold throw, modify. rewrite Hw1. eexists; eexists. split; [reflexivity|].
      split; [now left|]. left. now eexists.
Qed.

(** ** The render target *)

(** X1.  Whatever the data, [renderDebugInfo] changes nothing on the page
    but the render target's content and the model-list slot; when it throws,
    the target's content is as it was: no partly built markup is shown. *)
Theorem renderDebugInfo_touches_only_target_and_model_list (data : json) (w : world) :
  let w' := after (renderDebugInfo data) w in
  w' = set_debugInfoContent (debugInfoContent w') (set_lastModelList (lastModelList w') w)
  /\ match outcome (renderDebugInfo data) w with
     | Throw _ => debugInfoContent w' = debugInfoContent w
     | Normal _ => True
     end.
Proof.
  cbv zeta. unfold after, outcome.
  destruct (debugInfoContent w) as [previous|] eqn:Hcontent.
  - destruct (renderDebugInfo_run data previous w Hcontent)
      as (c & w' & w2 & -> & Hw2 & Hc).
    cbn [fst snd]. destruct c as [[]|e].
    + destruct Hc as [rest ->]. split; [|exact I].
      destruct Hw2 as [-> | [x ->]]; open_world w; reflexivity.
    + subst w'. destruct Hw2 as [-> | [x ->]]; split;
        try (open_world w; reflexivity).
      * open_world w. cbn in Hcontent |- *. now subst.
      * open_world w. cbn in Hcontent |- *. now subst.
  - rewrite (renderDebugInfo_without_content data w Hcontent). cbn [fst snd].
    split; [|exact I]. open_world w. cbn in Hcontent. now subst.
Qed.

(** X2.  Whatever the fetch answers, [loadDebugInfo] completes without
    throwing, issues one fetch of the debug endpoint when the page has the
    render target and none when it has not, and changes nothing but the
    target's content, the fetch log and the model-list slot. *)
Theorem loadDebugInfo_one_fetch_and_frame (answer : fetch_outcome) (w : world) :
  let w' := after (loadDebugInfo answer) w in
  outcome (loadDebugInfo answer) w = Normal tt
  /\ fetches w'
     = match debugInfoContent w with
       | Some _ => fetches w ++ [u "/api/debug5075378"]
       | None => fetches w
       end
  /\ w' = set_debugInfoContent (debugInfoContent w')
            (set_lastModelList (lastModelList w') (set_fetches (fetches w') w)).
Proof.
  cbv zeta. unfold after, outcome.
  destruct (debugInfoContent w) as [previous|] eqn:Hcontent.
  - destruct (loadDebugInfo_run answer previous w Hcontent)
      as (page0 & w2 & -> & Hw2 & _).
    cbn [fst snd]. split; [reflexivity|].
    destruct Hw2 as [-> | [x ->]]; open_world w; split; reflexivity.
  - rewrite (loadDebugInfo_without_content answer w Hcontent). cbn [fst snd].
    split; [reflexivity|]. split; [reflexivity|].
    open_world w. cbn in Hcontent. now subst.
Qed.

Lemma error_panel_is_not_loading_indicator (msg : jstring) :
  error_panel msg <> loading_indicator.
Proof. unfold error_panel. intro H. vm_compute in H. discriminate H. Qed.

Lemma page_is_not_loading_indicator (rest : jstring) :
  markup "<div class='debug-timestamp'>取得時刻: " ++ rest <> loading_indicator.
Proof. intro H. vm_compute in H. discriminate H. Qed.

(** X3.  On a page with the render target, whatever the fetch answers and
    whatever data it carries, [loadDebugInfo] ends with the loading
    indicator replaced: the target holds either the error panel of some
    message or a page that opens with the timestamp line. *)
Theorem loadDebugInfo_replaces_loading_indicator
    (answer : fetch_outcome) (previous : jstring) (w : world) :
  debugInfoContent w = Some previous ->
  exists shown,
    debugInfoContent (after (loadDebugInfo answer) w) = Some shown
    /\ shown <> loading_indicator
    /\ ((exists msg, shown = error_panel msg)
        \/ exists rest, shown = markup "<div class='debug-timestamp'>取得時刻: " ++ rest).
Proof.
  intro Hcontent. unfold after.
  destruct (loadDebugInfo_run answer previous w Hcontent)
    as (page0 & w2 & -> & _ & Hshown).
  exists page0. split; [open_world w2; reflexivity|]. split; [|exact Hshown].
  destruct Hshown as [[msg ->] | [rest ->]].
  - apply error_panel_is_not_loading_indicator.
  - apply page_is_not_loading_indicator.
Qed.

Lemma loadDebugInfo_replaces_loading_indicator_witness :
  debugInfoContent app_page = Some []
  /\ exists shown,
       debugInfoContent
         (after (loadDebugInfo (Responded (mkResponse 200 (u "OK") (Normal JNull)))) app_page)
       = Some shown
       /\ shown <> loading_indicator
       /\ ((exists msg, shown = error_panel msg)
           \/ exists rest,
                shown = markup "<div class='debug-timestamp'>取得時刻: " ++ rest).
Proof.
  split; [reflexivity|].
  apply (loadDebugInfo_replaces_loading_indicator
           (Responded (mkResponse 200 (u "OK") (Normal JNull))) [] app_page).
  reflexivity.
Defined.

(** ** The gate, on any page *)

Lemma removeItem_twice (key : jstring) (store : list (jstring * jstring)) :
  removeItem key (removeItem key store) = removeItem key store.
Proof.
  unfold removeItem. induction store as [|[k x] r IH]; [reflexivity|].
  cbn [filter fst]. destruct (jstring_eqb k key) eqn:E; cbn [negb]; [exact IH|].
  cbn [filter fst]. rewrite E. cbn [negb]. now rewrite IH.
Qed.

Lemma getItem_removeItem_other (key other : jstring) (store : list (jstring * jstring)) :
  other <> key -> getItem other (removeItem key store) = getItem other store.
Proof.
  intro Hne. unfold removeItem. induction store as [|[k x] r IH]; [reflexivity|].
  cbn [filter fst getItem]. destruct (jstring_eqb k key) eqn:E; cbn [negb].
  - apply jstring_eqb_eq in E. subst k.
    destruct (jstring_eqb key other) eqn:E'; [|exact IH].
    apply jstring_eqb_eq in E'. congruence.
  - cbn [getItem]. now rewrite IH.
Qed.

(** X4.  Applying the gate twice is applying it once: the second
    [updateDebugModeUI] changes nothing but the console log. *)
Theorem updateDebugModeUI_idempotent (w : world) :
  let once := after updateDebugModeUI w in
  let twice := after updateDebugModeUI once in
  twice = set_console (console twice) once.
Proof.
  open_world w. cbv zeta.
  destruct modelItem, debugItem, (truthy mode) eqn:E, verbose;
    js_unfold; rewrite ?E; js_unfold; rewrite ?E; js_unfold;
    rewrite ?removeItem_twice; reflexivity.
Qed.

(** X5.  [updateDebugModeUI] changes nothing but the two menu items'
    [display], the selected model, [localStorage] and the console log.  It
    creates no element: an absent item stays absent, a present one gets the
    empty [display] when the flag is truthy and "none" otherwise.  Of the
    stored preferences only [memo_ai_selected_model] can go: every other key
    reads as before; and under a truthy flag the selected model and the
    store are untouched. *)
Theorem updateDebugModeUI_scope (other : jstring) (w : world) :
  other <> u "memo_ai_selected_model" ->
  let w' := after updateDebugModeUI w in
  let display := if truthy (serverMode w) then [] else u "none" in
  w' = set_console (console w')
         (set_localStorage (localStorage w')
            (set_current (current w')
               (set_debugInfoMenuItem (debugInfoMenuItem w')
                  (set_modelSelectMenuItem (modelSelectMenuItem w') w))))
  /\ modelSelectMenuItem w' = option_map (fun _ => display) (modelSelectMenuItem w)
  /\ debugInfoMenuItem w' = option_map (fun _ => display) (debugInfoMenuItem w)
  /\ getItem other (localStorage w') = getItem other (localStorage w)
  /\ if truthy (serverMode w)
     then current w' = current w /\ localStorage w' = localStorage w
     else True.
Proof.
  intro Hother. open_world w. cbv zeta.
  destruct modelItem, debugItem, (truthy mode) eqn:E, verbose;
    js_unfold; rewrite ?E; js_unfold; cbn [option_map]; repeat split;
    now apply getItem_removeItem_other.
Qed.

Lemma updateDebugModeUI_scope_witness :
  let w := set_serverMode (Some (JBool false))
             (set_localStorage [(u "memo_ai_selected_model", u "m"); (u "theme", u "dark")]
                app_page) in
  u "theme" <> u "memo_ai_selected_model"
  /\ modelSelectMenuItem (after updateDebugModeUI w) = Some (u "none")
  /\ getItem (u "theme") (localStorage (after updateDebugModeUI w)) = Some (u "dark").
Proof.
  assert (Hother : u "theme" <> u "memo_ai_selected_model")
    by (intro H; vm_compute in H; discriminate H).
  split; [exact Hother|].
  destruct (updateDebugModeUI_scope (u "theme")
              (set_serverMode (Some (JBool false))
                 (set_localStorage
                    [(u "memo_ai_selected_model", u "m"); (u "theme", u "dark")] app_page))
              Hother) as (_ & Hitem & _ & Hkey & _).
  exact (conj Hitem Hkey).
Defined.

(** ** [initializeDebugMode], whatever the configuration fetch answers *)

Ltac js_unfold_but_gate :=
  cbv beta iota zeta delta
    [bind ret throw lift gets modify console_log debug_log fetch
     debugModal debugInfoContent modelSelectMenuItem debugInfoMenuItem
     lastApiCall lastModelList serverMode enabled defaultPrompt current
     localStorage showToast toasts clipboard fetches console
     set_serverMode set_defaultPrompt set_fetches set_console].

Lemma try_catch_normal {A : Type} (m : M A) (handler : exn -> M A) (w : world) (a : A) :
  fst (m w) = Normal a -> try_catch m handler w = m w.
Proof.
  unfold try_catch. destruct (m w) as [[b|e] w']; cbn [fst]; [reflexivity|discriminate].
Qed.

(** The prompt the configuration sets: a truthy [default_system_prompt] of a
    2xx answer whose body is an object; otherwise the previous one stays. *)
Lemma initializeDebugMode_settles (answer : fetch_outcome) (w : world) :
  match answer with Responded res => ok res = true | Rejected _ => True end ->
  exists w1,
    initializeDebugMode answer w = updateDebugModeUI w1
    /\ w1 = set_console (console w1)
              (set_fetches (fetches w ++ [u "/api/config"])
                 (set_defaultPrompt (defaultPrompt w1) (set_serverMode (serverMode w1) w)))
    /\ (serverMode w1 = Some (JBool false) \/ truthy (serverMode w1) = true)
    /\ defaultPrompt w1
       = match answer with
         | Responded res =>
             match body res with
             | Normal (JObj props) =>
                 if truthy (own_property (u "default_system_prompt") props)
                 then own_property (u "default_system_prompt") props
                 else defaultPrompt w
             | _ => defaultPrompt w
             end
         | Rejected _ => defaultPrompt w
         end.
Proof.
  intro Hok. open_world w.
  change (initializeDebugMode answer) with
    (try_catch
       (res <- fetch (u "/api/config") answer ;;
        if negb (ok res) then
          console_log (u "[DEBUG_MODE] Failed to fetch config, assuming debug_mode=false")
        else
          data <- lift (body res) ;;
          debug_mode <- lift (get (Some data) "debug_mode") ;;
          modify (set_serverMode (js_or debug_mode (Some (JBool false)))) ;;
          default_system_prompt <- lift (get (Some data) "default_system_prompt") ;;
          (if truthy default_system_prompt then
             modify (set_defaultPrompt default_system_prompt) ;;
             debug_log (u "[CONFIG] App.defaultPrompt loaded from backend")
           else ret tt) ;;
          debug_log (u "[DEBUG_MODE] Server debug_mode:") ;;
          updateDebugModeUI)
       (fun err =>
          console_log (u "[DEBUG_MODE] Error fetching config:") ;;
          modify (set_serverMode (Some (JBool false))) ;;
          updateDebugModeUI)).
  destruct answer as [e|res].
  - unfold try_catch. js_unfold_but_gate.
    eexists. split; [reflexivity|]. repeat split. now left.
  - destruct (body res) as [data|e] eqn:Hbody.
    + assert (Hnull : data = JNull \/ data <> JNull)
        by (destruct data; (now left) || (right; discriminate)).
      destruct Hnull as [-> | Hdata].
      * unfold try_catch. js_unfold_but_gate. rewrite Hok, Hbody. cbn [negb get].
        eexists. split; [reflexivity|]. repeat split. now left.
      * assert (Hget : forall name,
                  get (Some data) name
                  = Normal (match data with
                            | JObj props => own_property (u name) props
                            | _ => None
                            end))
          by (intro; destruct data; try reflexivity; congruence).
        set (flag := match data with
                     | JObj props => own_property (u "debug_mode") props
                     | _ => None
                     end).
        set (given := match data with
                      | JObj props => own_property (u "default_system_prompt") props
                      | _ => None
                      end).
        assert (Hflag : js_or flag (Some (JBool false)) = Some (JBool false)
                        \/ truthy (js_or flag (Some (JBool false))) = true)
          by (unfold js_or; destruct (truthy flag) eqn:E; [now right|now left]).
        destruct (truthy given) eqn:Etruthy, verbose.
        all: eexists; split;
          [ rewrite (try_catch_normal _ _ _ tt);
            [ js_unfold_but_gate; rewrite Hok, Hbody; cbn [negb];
              rewrite !Hget; fold flag given; rewrite Etruthy; reflexivity
            | js_unfold_but_gate; rewrite Hok, Hbody; cbn [negb];
              rewrite !Hget; fold flag given; rewrite Etruthy;
              apply updateDebugModeUI_completes ]
          | split; [reflexivity|]; split; [exact Hflag|];
            cbv beta iota delta [defaultPrompt]; clear Hflag; subst given;
            destruct data; cbn [truthy] in Etruthy; rewrite ?Etruthy;
            first [reflexivity | discriminate Etruthy] ].
    + unfold try_catch. js_unfold_but_gate. rewrite Hok, Hbody. cbn [negb].
      eexists. split; [reflexivity|]. repeat split. now left.
Qed.

(** What the gate does to a page, field by field. *)
Lemma updateDebugModeUI_effect (w : world) :
  let w' := after updateDebugModeUI w in
  let display := if truthy (serverMode w) then [] else u "none" in
  updateDebugModeUI w = (Normal tt, w')
  /\ w' = set_console (console w')
            (set_localStorage (localStorage w')
               (set_current (current w')
                  (set_debugInfoMenuItem (debugInfoMenuItem w')
                     (set_modelSelectMenuItem (modelSelectMenuItem w') w))))
  /\ modelSelectMenuItem w' = option_map (fun _ => display) (modelSelectMenuItem w)
  /\ debugInfoMenuItem w' = option_map (fun _ => display) (debugInfoMenuItem w)
  /\ if truthy (serverMode w)
     then current w' = current w /\ localStorage w' = localStorage w
     else match modelSelectMenuItem w with
          | Some _ =>
              current w' = Some JNull
              /\ localStorage w' = removeItem (u "memo_ai_selected_model") (localStorage w)
          | None => current w' = current w /\ localStorage w' = localStorage w
          end.
Proof.
  open_world w. cbv zeta.
  destruct modelItem, debugItem, (truthy mode) eqn:E, verbose;
    js_unfold; rewrite ?E; js_unfold; cbn [option_map]; repeat split.
Qed.

(** Reads a frame equation field by field. *)
Ltac fields_of H :=
  match type of H with
  | ?a = _ => destruct a; cbv beta iota zeta delta
                [set_debugModal set_debugInfoContent set_modelSelectMenuItem
                 set_debugInfoMenuItem set_lastApiCall set_lastModelList set_serverMode
                 set_defaultPrompt set_current set_localStorage set_toasts set_clipboard
                 set_fetches set_console
                 debugModal debugInfoContent modelSelectMenuItem debugInfoMenuItem
                 lastApiCall lastModelList serverMode enabled defaultPrompt current
                 localStorage showToast toasts clipboard fetches console] in *;
              injection H as ?; subst
  end.

(** X6.  Whatever the fetch answers, [initializeDebugMode] completes without
    throwing and issues exactly one fetch, of the configuration; it leaves
    the modal, the render target, both debug slots, the clipboard and the
    notifications alone. *)
Theorem initializeDebugMode_one_fetch_and_frame (answer : fetch_outcome) (w : world) :
  let w' := after (initializeDebugMode answer) w in
  outcome (initializeDebugMode answer) w = Normal tt
  /\ fetches w' = fetches w ++ [u "/api/config"]
  /\ w' = set_console (console w')
            (set_fetches (fetches w')
               (set_localStorage (localStorage w')
                  (set_current (current w')
                     (set_defaultPrompt (defaultPrompt w')
                        (set_serverMode (serverMode w')
                           (set_debugInfoMenuItem (debugInfoMenuItem w')
                              (set_modelSelectMenuItem (modelSelectMenuItem w') w))))))).
Proof.
  cbv zeta. unfold after, outcome.
  assert (Hcases : match answer with Responded res => ok res = true | Rejected _ => True end
                   \/ exists res, answer = Responded res /\ ok res = false).
  { destruct answer as [e|res]; [now left|].
    destruct (ok res) eqn:E; [now left|right; now exists res]. }
  destruct Hcases as [Hok | (res & -> & Hok)].
  - destruct (initializeDebugMode_settles answer w Hok) as (w1 & -> & Hw1 & _).
    destruct (updateDebugModeUI_effect w1) as (-> & Hw' & _).
    cbn [fst snd]. unfold after in *.
    set (w' := snd (updateDebugModeUI w1)) in *. clearbody w'.
    open_world w. fields_of Hw1. fields_of Hw'. repeat split.
  - rewrite (initializeDebugMode_bad_status res w Hok). cbn [fst snd].
    open_world w. repeat split.
Qed.

(** X7.  When the configuration fetch does not end in a bad status (it
    rejects, or answers 2xx with any body at all), the page is left
    consistent with the flag: the flag is [false] or a truthy value; each
    menu item that exists shows ([display] empty) under a truthy flag and is
    hidden ("none") otherwise; under a truthy flag the selected model and
    the stored preferences are as before; under [false] they are cleared
    exactly when the model-selection item exists. *)
Theorem initializeDebugMode_page_matches_flag (answer : fetch_outcome) (w : world) :
  match answer with Responded res => ok res = true | Rejected _ => True end ->
  let w' := after (initializeDebugMode answer) w in
  let display := if truthy (serverMode w') then [] else u "none" in
  (serverMode w' = Some (JBool false) \/ truthy (serverMode w') = true)
  /\ modelSelectMenuItem w' = option_map (fun _ => display) (modelSelectMenuItem w)
  /\ debugInfoMenuItem w' = option_map (fun _ => display) (debugInfoMenuItem w)
  /\ if truthy (serverMode w')
     then current w' = current w /\ localStorage w' = localStorage w
     else match modelSelectMenuItem w with
          | Some _ =>
              current w' = Some JNull
              /\ localStorage w' = removeItem (u "memo_ai_selected_model") (localStorage w)
          | None => current w' = current w /\ localStorage w' = localStorage w
          end.
Proof.
  intro Hok. cbv zeta. unfold after.
  destruct (initializeDebugMode_settles answer w Hok) as (w1 & -> & Hw1 & Hflag & _).
  destruct (updateDebugModeUI_effect w1) as (-> & Hw' & Hmodel & Hdebug & Hclear).
  cbn [fst snd]. unfold after in *.
  set (w' := snd (updateDebugModeUI w1)) in *. clearbody w'.
  open_world w. fields_of Hw1. fields_of Hw'.
  split; [exact Hflag|]. split; [first [reflexivity|assumption]|].
  split; [first [reflexivity|assumption]|]. exact Hclear.
Qed.

Lemma initializeDebugMode_page_matches_flag_witness :
  let answer :=
    Responded (mkResponse 200 (u "OK") (Normal (JObj [(u "debug_mode", JNum (u "1"))]))) in
  let w' := after (initializeDebugMode answer) app_page in
  ok (mkResponse 200 (u "OK") (Normal (JObj [(u "debug_mode", JNum (u "1"))]))) = true
  /\ (serverMode w' = Some (JBool false) \/ truthy (serverMode w') = true)
  /\ modelSelectMenuItem w'
     = option_map (fun _ => if truthy (serverMode w') then [] else u "none")
         (modelSelectMenuItem app_page).
Proof.
  split; [reflexivity|].
  destruct (initializeDebugMode_page_matches_flag
              (Responded (mkResponse 200 (u "OK")
                            (Normal (JObj [(u "debug_mode", JNum (u "1"))]))))
              app_page eq_refl) as (Hflag & Hmodel & _).
  exact (conj Hflag Hmodel).
Defined.

(** X8.  The default prompt changes only when a 2xx configuration whose body
    is an object carries a truthy [default_system_prompt], and then to that
    value; a rejected fetch, a bad status, an unparsable or non-object body,
    a missing or empty prompt all keep the previous one. *)
Theorem initializeDebugMode_default_prompt (answer : fetch_outcome) (w : world) :
  defaultPrompt (after (initializeDebugMode answer) w)
  = match answer with
    | Responded res =>
        match body res with
        | Normal (JObj props) =>
            if ok res && truthy (own_property (u "default_system_prompt") props)
            then own_property (u "default_system_prompt") props
            else defaultPrompt w
        | _ => defaultPrompt w
        end
    | Rejected _ => defaultPrompt w
    end.
Proof.
  unfold after.
  assert (Hcases : match answer with Responded res => ok res = true | Rejected _ => True end
                   \/ exists res, answer = Responded res /\ ok res = false).
  { destruct answer as [e|res]; [now left|].
    destruct (ok res) eqn:E; [now left|right; now exists res]. }
  destruct Hcases as [Hok | (res & -> & Hok)].
  - destruct (initializeDebugMode_settles answer w Hok) as (w1 & -> & Hw1 & _ & Hprompt).
    destruct (updateDebugModeUI_effect w1) as (-> & Hw' & _).
    cbn [fst snd]. unfold after in *.
    set (w' := snd (updateDebugModeUI w1)) in *. clearbody w'.
    assert (Hsame : defaultPrompt w' = defaultPrompt w1)
      by (rewrite Hw'; destruct w1; reflexivity).
    rewrite Hsame, Hprompt. destruct answer as [e|res]; [reflexivity|].
    rewrite Hok. reflexivity.
  - rewrite (initializeDebugMode_bad_status res w Hok), Hok. cbn [fst snd andb].
    open_world w. destruct (body res) as [[| | | | |]|]; reflexivity.
Qed.

(** ** The modal *)

(** The load, cut at its [await]: on a page with the render target,
    [loadDebugInfo] is [loadDebugInfo_begin], which leaves the promise
    pending, followed by [loadDebugInfo_resume]; on a page without it the
    load has ended when it begins. *)
Lemma loadDebugInfo_begin_run (w : world) :
  loadDebugInfo_begin w
  = match debugInfoContent w with
    | Some _ =>
        (Normal true,
         set_fetches (fetches w ++ [u "/api/debug5075378"])
           (set_debugInfoContent (Some loading_indicator) w))
    | None => (Normal false, w)
    end.
Proof. open_world w. destruct content; reflexivity. Qed.

Lemma loadDebugInfo_begin_resume (answer : fetch_outcome) (w : world) :
  loadDebugInfo answer w
  = (pending <- loadDebugInfo_begin ;;
     if pending then loadDebugInfo_resume answer else ret tt) w.
Proof.
  unfold bind at 1. rewrite loadDebugInfo_begin_run.
  unfold loadDebugInfo, bind at 1, gets at 1.
  destruct (debugInfoContent w); [|reflexivity].
  unfold loadDebugInfo_resume, bind at 1, modify at 1, try_catch, bind at 1, fetch,
    bind at 1, modify at 1, bind at 2, fetch_await.
  open_world w. reflexivity.
Qed.

Lemma renderDebugInfo_keeps_modal (data : json) (w : world) :
  debugModal (after (renderDebugInfo data) w) = debugModal w.
Proof.
  unfold after. destruct (debugInfoContent w) as [previous|] eqn:Hcontent.
  - destruct (renderDebugInfo_run data previous w Hcontent)
      as (c & w' & w2 & -> & Hw2 & Hc).
    cbn [snd]. destruct c as [[]|e]; [destruct Hc as [rest ->]|subst w'];
      destruct Hw2 as [-> | [x ->]]; open_world w; reflexivity.
  - now rewrite (renderDebugInfo_without_content data w Hcontent).
Qed.

(** Whenever the fetch answers, the rest of the load completes and leaves
    the modal's classes as they are. *)
Lemma loadDebugInfo_resume_keeps_modal (answer : fetch_outcome) (w : world) :
  outcome (loadDebugInfo_resume answer) w = Normal tt
  /\ debugModal (after (loadDebugInfo_resume answer) w) = debugModal w.
Proof.
  unfold outcome, after.
  destruct (loadDebugInfo_resume answer w) as [c w'] eqn:Hrun. cbn [fst snd].
  unfold loadDebugInfo_resume, try_catch, bind at 1, fetch_await in Hrun.
  destruct answer as [e|res].
  - unfold throw, modify in Hrun. injection Hrun as <- <-.
    split; [reflexivity|]. open_world w. reflexivity.
  - unfold ret at 1 in Hrun. destruct (ok res); cbn [negb] in Hrun.
    + unfold bind at 1, lift at 1 in Hrun. destruct (body res) as [data|e].
      * pose proof (renderDebugInfo_keeps_modal data w) as Hkeeps. unfold after in Hkeeps.
        destruct (renderDebugInfo data w) as [[[]|e] w1]; cbn [snd] in Hkeeps.
        -- injection Hrun as <- <-. now split.
        -- unfold modify in Hrun. injection Hrun as <- <-.
           split; [reflexivity|]. rewrite <- Hkeeps. open_world w1. reflexivity.
      * unfold modify in Hrun. injection Hrun as <- <-.
        split; [reflexivity|]. open_world w. reflexivity.
    + unfold throw, modify in Hrun. injection Hrun as <- <-.
      split; [reflexivity|]. open_world w. reflexivity.
Qed.

(** What [openDebugModal] has done when it returns, on a page with the
    modal: the class is off and the load has begun. *)
Lemma openDebugModal_run (classes : list jstring) (w : world) :
  debugModal w = Some classes ->
  openDebugModal w
  = (Normal tt,
     after loadDebugInfo_begin
       (set_debugModal (Some (classList_remove (u "hidden") classes)) w)).
Proof.
  intro Hmodal. unfold openDebugModal, bind at 1, gets at 1. rewrite Hmodal.
  unfold bind at 1, modify at 1, bind at 1, after.
  rewrite loadDebugInfo_begin_run.
  destruct (debugInfoContent _); reflexivity.
Qed.

Lemma loadDebugInfo_begin_keeps_modal (w : world) :
  debugModal (after loadDebugInfo_begin w) = debugModal w.
Proof.
  unfold after. rewrite loadDebugInfo_begin_run.
  open_world w. destruct content; reflexivity.
Qed.

Lemma classList_remove_spec (token c : jstring) (classes : list jstring) :
  In c (classList_remove token classes) <-> In c classes /\ c <> token.
Proof.
  unfold classList_remove. rewrite filter_In. split; intros [Hin Hc]; split; trivial.
  - intros ->. now rewrite jstring_eqb_refl in Hc.
  - destruct (jstring_eqb c token) eqn:E; [|reflexivity].
    apply jstring_eqb_eq in E. contradiction.
Qed.

Lemma classList_remove_twice (token : jstring) (classes : list jstring) :
  classList_remove token (classList_remove token classes) = classList_remove token classes.
Proof.
  unfold classList_remove. induction classes as [|c r IH]; [reflexivity|].
  cbn [filter]. destruct (jstring_eqb c token) eqn:E; cbn [negb]; [exact IH|].
  cbn [filter]. rewrite E. cbn [negb]. now rewrite IH.
Qed.

Lemma existsb_removed (token : jstring) (classes : list jstring) :
  existsb (jstring_eqb token) (classList_remove token classes) = false.
Proof.
  destruct (existsb _ _) eqn:E; [|reflexivity].
  apply existsb_exists in E as (c & Hin & Hc).
  apply jstring_eqb_eq in Hc. subst c.
  apply classList_remove_spec in Hin. now destruct Hin.
Qed.

(** X9.  On a page with the modal: [openDebugModal] completes (it returns
    while the load is in flight), takes the class [hidden] away and keeps
    the other classes; [closeDebugModal] after it puts [hidden] back, once,
    at the end; closing a second time changes nothing, and opening again
    gives the classes of the first opening.  The load settling, at whatever
    moment and whatever the fetch answers, completes and leaves the classes
    as they are: so it does while the modal is open and after it was
    closed. *)
Theorem openDebugModal_closeDebugModal_classes
    (answer : fetch_outcome) (classes : list jstring) (w : world) :
  debugModal w = Some classes ->
  let shown := classList_remove (u "hidden") classes in
  let opened := after openDebugModal w in
  let closed := after closeDebugModal opened in
  outcome openDebugModal w = Normal tt
  /\ debugModal opened = Some shown
  /\ ~ In (u "hidden") shown
  /\ (forall c, c <> u "hidden" -> (In c shown <-> In c classes))
  /\ outcome closeDebugModal opened = Normal tt
  /\ debugModal closed = Some (shown ++ [u "hidden"])
  /\ debugModal (after closeDebugModal closed) = Some (shown ++ [u "hidden"])
  /\ debugModal (after openDebugModal closed) = Some shown
  /\ (forall w0 : world,
        outcome (loadDebugInfo_resume answer) w0 = Normal tt
        /\ debugModal (after (loadDebugInfo_resume answer) w0) = debugModal w0)
  /\ debugModal (after (loadDebugInfo_resume answer) opened) = Some shown
  /\ debugModal (after (loadDebugInfo_resume answer) closed) = Some (shown ++ [u "hidden"]).
Proof.
  intro Hmodal. cbv zeta.
  assert (Hopen : forall cs w0,
            debugModal w0 = Some cs ->
            outcome openDebugModal w0 = Normal tt
            /\ debugModal (after openDebugModal w0)
               = Some (classList_remove (u "hidden") cs)).
  { intros cs w0 H0. unfold outcome, after at 1.
    rewrite (openDebugModal_run cs w0 H0). cbn [fst snd].
    split; [reflexivity|]. rewrite loadDebugInfo_begin_keeps_modal.
    open_world w0. reflexivity. }
  assert (Hclose : forall cs w0,
            debugModal w0 = Some cs ->
            outcome closeDebugModal w0 = Normal tt
            /\ debugModal (after closeDebugModal w0)
               = Some (classList_add (u "hidden") cs)).
  { intros cs w0 H0. unfold outcome, after, closeDebugModal, bind, gets, modify.
    rewrite H0. split; [reflexivity|]. cbn [snd]. open_world w0. reflexivity. }
  destruct (Hopen classes w Hmodal) as [Hdone Hopened].
  set (opened := after openDebugModal w) in *.
  destruct (Hclose _ opened Hopened) as [Hdone' Hclosed].
  set (closed := after closeDebugModal opened) in *.
  assert (Hadd : classList_add (u "hidden") (classList_remove (u "hidden") classes)
                 = classList_remove (u "hidden") classes ++ [u "hidden"])
    by (unfold classList_add; now rewrite existsb_removed).
  rewrite Hadd in Hclosed.
  assert (Hkept : classList_add (u "hidden")
                    (classList_remove (u "hidden") classes ++ [u "hidden"])
                  = classList_remove (u "hidden") classes ++ [u "hidden"]).
  { unfold classList_add. rewrite existsb_app. cbn [existsb].
    rewrite jstring_eqb_refl, orb_true_r. reflexivity. }
  assert (Hback : classList_remove (u "hidden")
                    (classList_remove (u "hidden") classes ++ [u "hidden"])
                  = classList_remove (u "hidden") classes).
  { unfold classList_remove at 1. rewrite filter_app. cbn [filter].
    rewrite jstring_eqb_refl. cbn [negb]. rewrite app_nil_r.
    apply classList_remove_twice. }
  split; [exact Hdone|]. split; [exact Hopened|].
  split; [intro Hin; apply classList_remove_spec in Hin; now destruct Hin|].
  split; [intros c Hc; rewrite classList_remove_spec; tauto|].
  split; [exact Hdone'|]. split; [exact Hclosed|].
  split; [destruct (Hclose _ closed Hclosed) as [_ ->]; now rewrite Hkept|].
  split; [destruct (Hopen _ closed Hclosed) as [_ ->]; now rewrite Hback|].
  split; [intro w0; apply loadDebugInfo_resume_keeps_modal|].
  split.
  - now rewrite (proj2 (loadDebugInfo_resume_keeps_modal answer opened)).
  - now rewrite (proj2 (loadDebugInfo_resume_keeps_modal answer closed)).
Qed.

Lemma openDebugModal_closeDebugModal_classes_witness :
  debugModal app_page = Some [u "modal"; u "hidden"]
  /\ debugModal (after openDebugModal app_page) = Some [u "modal"]
  /\ debugModal (after closeDebugModal (after openDebugModal app_page))
     = Some [u "modal"; u "hidden"]
  /\ debugModal (after (loadDebugInfo_resume server_error) (after openDebugModal app_page))
     = Some [u "modal"].
Proof.
  split; [reflexivity|].
  destruct (openDebugModal_closeDebugModal_classes server_error
              [u "modal"; u "hidden"] app_page eq_refl)
    as (_ & Hopened & _ & _ & _ & Hclosed & _ & _ & _ & Hloaded & _).
  exact (conj Hopened (conj Hclosed Hloaded)).
Defined.

(** ** The clipboard exports, on any page *)

(** X10.  Each export reports once, or throws before it has done
    anything.  With its slot empty, or on a page that has the Clipboard API
    (whether the write resolves or rejects), [copyModelList] and
    [copyLastApiCall] complete, show exactly one notification when
    [window.showToast] is installed and none when it is not, issue at most
    one clipboard write, and leave both slots as they were.  With its slot
    populated on a page without the Clipboard API, the export throws a
    [TypeError] and the page is as it was: nothing written, nothing
    shown. *)
Theorem exports_report_once_or_throw (answer : clipboard_outcome) (w : world) :
  let reported := if showToast w then 1%nat else 0%nat in
  match answer, truthy (lastModelList w) with
  | NoClipboard, true =>
      exists e, copyModelList answer w = (Throw e, w) /\ exn_name e = u "TypeError"
  | _, _ =>
      let w' := after (copyModelList answer) w in
      outcome (copyModelList answer) w = Normal tt
      /\ List.length (toasts w') = (List.length (toasts w) + reported)%nat
      /\ (List.length (clipboard w') <= List.length (clipboard w) + 1)%nat
      /\ lastModelList w' = lastModelList w
      /\ lastApiCall w' = lastApiCall w
  end
  /\ match answer, lastApiCall w with
     | NoClipboard, Some _ =>
         exists e, copyLastApiCall answer w = (Throw e, w) /\ exn_name e = u "TypeError"
     | _, _ =>
         let w' := after (copyLastApiCall answer) w in
         outcome (copyLastApiCall answer) w = Normal tt
         /\ List.length (toasts w') = (List.length (toasts w) + reported)%nat
         /\ (List.length (clipboard w') <= List.length (clipboard w) + 1)%nat
         /\ lastModelList w' = lastModelList w
         /\ lastApiCall w' = lastApiCall w
     end.
Proof.
  open_world w. cbv zeta. split.
  - destruct answer as [|written];
      cbv beta iota delta [lastModelList];
      destruct (truthy rawList) eqn:E;
      try destruct written; destruct toaster; js_unfold; rewrite ?E;
      cbn [negb]; js_unfold; rewrite ?length_app; cbn [List.length];
      first [ eexists; split; reflexivity | repeat split; lia ].
  - destruct answer as [|written]; destruct call; try destruct written; destruct toaster;
      js_unfold; rewrite ?length_app; cbn [List.length];
      first [ eexists; split; reflexivity | repeat split; lia ].
Qed.

(** X11.  [copyModelList] writes to the clipboard exactly when the slot is
    truthy and the page has the Clipboard API, and then the slot's
    [JSON.stringify(..., null, 2)] text and nothing else: a list is exported
    even when empty, a falsy value ([undefined], [null], [false], [0], the
    empty text) is nothing to copy.  The message shown tells which way the
    call went: nothing to copy, copied, or failed; on a page without the
    Clipboard API a truthy slot gets no message at all. *)
Theorem copyModelList_writes_when_truthy (answer : clipboard_outcome) (w : world) :
  let w' := after (copyModelList answer) w in
  clipboard w'
  = match lastModelList w, answer with
    | Some x, Settles _ =>
        if truthy (Some x) then clipboard w ++ [serialize [] x] else clipboard w
    | _, _ => clipboard w
    end
  /\ toasts w'
     = if showToast w
       then match truthy (lastModelList w), answer with
            | false, _ => toasts w ++ [u "コピーするデータがありません"]
            | true, Settles written =>
                toasts w
                  ++ [if written then u "モデルデータをコピーしました" else u "コピー失敗"]
            | true, NoClipboard => toasts w
            end
       else toasts w.
Proof.
  open_world w. cbv zeta.
  destruct rawList as [x|]; [destruct (truthy (Some x)) eqn:E|];
    destruct answer as [|written]; try destruct written; destruct toaster;
    js_unfold; rewrite ?E; cbn [negb truthy];
    js_unfold; cbn [JSON_stringify text_or_undefined]; repeat split.
Qed.

(** ** The recorder, call after call *)

(** X12.  The recorder keeps the last recorded call only and nothing of the
    calls before: a recording that completes after another leaves the page
    as it would alone, whether the earlier one completed or threw.  A
    recording changes nothing but the slot; it throws exactly when a payload
    is [undefined], and then changes nothing at all, so the call recorded
    before stays. *)
Theorem recordApiCall_last_call_wins
    (now1 now2 : jstring)
    (endpoint1 method1 request1 response1 error1 status1 : value)
    (endpoint2 method2 request2 response2 error2 status2 : value) (w : world) :
  let first := recordApiCall now1 endpoint1 method1 request1 response1 error1 status1 in
  let second := recordApiCall now2 endpoint2 method2 request2 response2 error2 status2 in
  match request2, response2 with
  | Some _, Some _ => after second (after first w) = after second w
  | _, _ => after second (after first w) = after first w
  end
  /\ after first w = set_lastApiCall (lastApiCall (after first w)) w
  /\ match request1, response1 with
     | Some _, Some _ => outcome first w = Normal tt
     | _, _ => after first w = w /\ outcome first w <> Normal tt
     end.
Proof.
  cbv zeta. unfold after, outcome, recordApiCall, bind, lift, modify, sanitize.
  open_world w.
  destruct request1, response1, request2, response2; cbn [fst snd];
    repeat split; first [reflexivity | discriminate].
Qed.

Lemma scrub_without_image_text (v : json) : has_image_text v = false -> scrub v = v.
Proof.
  induction v as [| b | t | s | items IH | props IH] using json_induction;
    try reflexivity; cbn [has_image_text scrub]; intro Hnone; f_equal.
  - induction IH as [|x r Hx _ IHr]; [reflexivity|].
    cbn [existsb] in Hnone. apply orb_false_iff in Hnone as [Hx' Hr].
    cbn [map]. now rewrite Hx, IHr.
  - induction IH as [|[k x] r Hx _ IHr]; [reflexivity|].
    cbn [existsb fst snd] in Hnone. apply orb_false_iff in Hnone as [Hx' Hr].
    cbn [map fst snd]. rewrite IHr by exact Hr. f_equal. f_equal.
    cbn [snd] in Hx. destruct x; try (now apply Hx).
    now rewrite Hx'.
Qed.

(** X13.  A payload that holds no text under the key [image_data], at any
    depth, is recorded as it is: the stored request and response are the
    payloads themselves. *)
Theorem recordApiCall_keeps_payloads_without_images
    (now : jstring) (endpoint method error status : value) (request response : json)
    (w : world) :
  has_image_text request = false ->
  has_image_text response = false ->
  recordApiCall now endpoint method (Some request) (Some response) error status w
  = (Normal tt,
     set_lastApiCall
       (Some (mkApiCall now endpoint method (or_null status) (or_null error)
                request response)) w).
Proof.
  intros Hrequest Hresponse.
  unfold recordApiCall, bind, lift, modify, sanitize.
  now rewrite !sanitized_copy_root, !scrub_without_image_text.
Qed.

Lemma recordApiCall_keeps_payloads_without_images_witness :
  let request := JObj [(u "text", JStr (u "hi")); (u "image_data", JNull)] in
  let response := JArr [JObj [(u "reply", JStr (u "ok"))]] in
  (has_image_text request = false /\ has_image_text response = false)
  /\ recordApiCall (u "2026-01-01T00:00:00.000Z") (Some (JStr (u "/api/chat")))
       (Some (JStr (u "POST"))) (Some request) (Some response) None None bare_page
     = (Normal tt,
        set_lastApiCall
          (Some (mkApiCall (u "2026-01-01T00:00:00.000Z") (Some (JStr (u "/api/chat")))
                   (Some (JStr (u "POST"))) (or_null None) (or_null None)
                   request response)) bare_page).
Proof.
  split; [split; reflexivity|].
  apply recordApiCall_keeps_payloads_without_images; reflexivity.
Defined.

(** ** Escaping *)

Lemma escape_lt_app (a b : jstring) : escape_lt (a ++ b) = escape_lt a ++ escape_lt b.
Proof. unfold escape_lt. apply flat_map_app. Qed.

Lemma escape_lt_without_lt (text : jstring) :
  ~ In lt_sign text -> escape_lt text = text.
Proof.
  unfold escape_lt. induction text as [|c r IH]; intro Hnone; [reflexivity|].
  cbn [flat_map]. destruct (c =? lt_sign) eqn:E.
  - apply N.eqb_eq in E. subst c. exfalso. apply Hnone. now left.
  - cbn [app]. f_equal. apply IH. intro Hin. apply Hnone. now right.
Qed.

(** X14.  The escaping of the JSON blocks touches "<" only: it goes through
    a text piece by piece, leaves a text without "<" as it is (so "&", ">"
    and quotes are shown unescaped), and applied to its own result changes
    nothing. *)
Theorem escape_lt_touches_lt_only (a b text : jstring) :
  ~ In lt_sign text ->
  escape_lt text = text
  /\ escape_lt (a ++ b) = escape_lt a ++ escape_lt b
  /\ escape_lt (a ++ u "<" ++ b) = escape_lt a ++ u "&lt;" ++ escape_lt b
  /\ escape_lt (escape_lt a) = escape_lt a.
Proof.
  intro Hnone. split; [now apply escape_lt_without_lt|].
  split; [apply escape_lt_app|]. split.
  - now rewrite !escape_lt_app.
  - apply escape_lt_without_lt, escape_lt_has_no_lt.
Qed.

Lemma escape_lt_touches_lt_only_witness :
  ~ In lt_sign (u "a & b > c")
  /\ escape_lt (u "a & b > c") = u "a & b > c"
  /\ escape_lt (escape_lt (u "<b>")) = escape_lt (u "<b>").
Proof.
  assert (Hnone : ~ In lt_sign (u "a & b > c"))
    by (vm_compute; intuition discriminate).
  split; [exact Hnone|].
  destruct (escape_lt_touches_lt_only (u "<b>") [] (u "a & b > c") Hnone)
    as (Hsame & _ & _ & Htwice).
  exact (conj Hsame Htwice).
Defined.

(** ** The size of the placeholder *)

Lemma length_digits_revapp (d d' : Decimal.uint) :
  List.length (digits_of_uint (Decimal.revapp d d'))
  = (List.length (digits_of_uint d) + List.length (digits_of_uint d'))%nat.
Proof.
  revert d'. induction d; intro d'; cbn [Decimal.revapp digits_of_uint List.length];
    try reflexivity; rewrite IHd; cbn [digits_of_uint List.length]; lia.
Qed.

Lemma length_digits_succ (d : Decimal.uint) :
  (List.length (digits_of_uint (Decimal.Little.succ d))
   <= S (List.length (digits_of_uint d)))%nat.
Proof.
  induction d; cbn [Decimal.Little.succ digits_of_uint List.length]; lia.
Qed.

Lemma length_decimal_succ (n : nat) :
  (List.length (decimal (S n)) <= S (List.length (decimal n)))%nat.
Proof.
  unfold decimal. rewrite !DecimalNat.Unsigned.to_uint_alt.
  unfold Decimal.rev. rewrite !length_digits_revapp.
  rewrite DecimalNat.Unsigned.to_lu_succ.
  pose proof (length_digits_succ (DecimalNat.Unsigned.to_lu n)). lia.
Qed.

Lemma length_image_placeholder (n : nat) :
  List.length (image_placeholder n) = (15 + List.length (decimal n))%nat.
Proof.
  unfold image_placeholder. rewrite !length_app.
  change (List.length (u "[Image: ")) with 8%nat.
  change (List.length (u " chars]")) with 7%nat. lia.
Qed.

Lemma length_decimal_from_17 (n : nat) :
  (List.length (decimal (17 + n)) + 15 <= 17 + n)%nat.
Proof.
  induction n as [|n IH].
  - vm_compute. lia.
  - replace (17 + S n)%nat with (S (17 + n)) by lia.
    pose proof (length_decimal_succ (17 + n)). lia.
Qed.

(** X15.  The placeholder stored for an image text of N characters has at
    most max(N, 17) characters: a text of 17 characters or more never grows
    by being recorded, and the placeholder of a shorter one has at most 17
    characters. *)
Theorem image_placeholder_is_short (s : jstring) :
  exists p,
    replacer (u "image_data") (JStr s) = JStr p
    /\ (List.length p <= Nat.max (List.length s) 17)%nat.
Proof.
  exists (image_placeholder (List.length s)). split; [reflexivity|].
  rewrite length_image_placeholder.
  destruct (Nat.le_gt_cases 17 (List.length s)) as [Hlong | Hshort].
  - replace (List.length s) with (17 + (List.length s - 17))%nat at 1 by lia.
    pose proof (length_decimal_from_17 (List.length s - 17)). lia.
  - assert (Hdigits : (List.length (decimal (List.length s)) <= 2)%nat).
    { generalize dependent (List.length s). intros n Hn.
      do 17 (destruct n as [|n]; [vm_compute; lia|]). lia. }
    lia.
Qed.

(** ** Opening the modal on a snapshot *)

(** X16.  On a page with the modal and the render target, [openDebugModal]
    returns with the modal shown, the fetch of the debug endpoint issued and
    the target holding the loading indicator: nothing is rendered yet and
    the model-list slot is as it was.  When the endpoint then answers 2xx
    with a snapshot, the rest of the load completes and changes two things
    only: the target holds the page of that snapshot, and the model-list
    slot holds the snapshot's raw list (or what it held before, when the
    snapshot has no model catalog). *)
Theorem openDebugModal_shows_indicator_then_snapshot
    (d : DebugSnapshot) (res : Response) (classes : list jstring) (previous : jstring)
    (w : world) :
  debugModal w = Some classes ->
  debugInfoContent w = Some previous ->
  ok res = true ->
  body res = Normal (json_of_snapshot d) ->
  let opened := after openDebugModal w in
  let loaded := after (loadDebugInfo_resume (Responded res)) opened in
  outcome openDebugModal w = Normal tt
  /\ opened
     = set_fetches (fetches w ++ [u "/api/debug5075378"])
         (set_debugInfoContent (Some loading_indicator)
            (set_debugModal (Some (classList_remove (u "hidden") classes)) w))
  /\ outcome (loadDebugInfo_resume (Responded res)) opened = Normal tt
  /\ loaded
     = set_debugInfoContent (Some (page d (lastApiCall w)))
         (match models d with
          | Some m => set_lastModelList (Some (JArr (raw_list m))) opened
          | None => opened
          end).
Proof.
  intros Hmodal Hcontent Hok Hbody. cbv zeta.
  set (w0 := set_debugModal (Some (classList_remove (u "hidden") classes)) w).
  assert (Hshown : debugInfoContent w0 = Some previous)
    by (subst w0; open_world w; exact Hcontent).
  assert (Hopened : after openDebugModal w
                    = set_fetches (fetches w ++ [u "/api/debug5075378"])
                        (set_debugInfoContent (Some loading_indicator) w0)).
  { unfold after at 1. rewrite (openDebugModal_run classes w Hmodal). cbn [snd].
    fold w0. unfold after. rewrite loadDebugInfo_begin_run, Hshown. cbn [snd].
    subst w0. open_world w. reflexivity. }
  assert (Hload : loadDebugInfo_resume (Responded res) (after openDebugModal w)
                  = loadDebugInfo (Responded res) w0).
  { rewrite (loadDebugInfo_begin_resume (Responded res) w0).
    unfold bind. rewrite loadDebugInfo_begin_run, Hshown, Hopened.
    reflexivity. }
  unfold outcome. rewrite (openDebugModal_run classes w Hmodal). cbn [fst].
  split; [reflexivity|]. split; [exact Hopened|].
  assert (Hloaded : after (loadDebugInfo_resume (Responded res)) (after openDebugModal w)
                    = snd (loadDebugInfo (Responded res) w0))
    by (unfold after at 1; now rewrite Hload).
  rewrite Hloaded, Hload.
  rewrite (loadDebugInfo_snapshot d res previous w0 Hshown Hok Hbody). cbn [fst snd].
  split; [reflexivity|].
  rewrite Hopened. subst w0. open_world w. destruct (models d); reflexivity.
Qed.

Lemma openDebugModal_shows_indicator_then_snapshot_witness :
  let res := mkResponse 200 (u "OK") (Normal (json_of_snapshot sample_snapshot)) in
  let opened := after openDebugModal app_page in
  (debugModal app_page = Some [u "modal"; u "hidden"]
   /\ debugInfoContent app_page = Some []
   /\ ok res = true)
  /\ opened
     = set_fetches [u "/api/debug5075378"]
         (set_debugInfoContent (Some loading_indicator)
            (set_debugModal (Some [u "modal"]) app_page))
  /\ outcome (loadDebugInfo_resume (Responded res)) opened = Normal tt.
Proof.
  split; [repeat split|].
  destruct (openDebugModal_shows_indicator_then_snapshot sample_snapshot
              (mkResponse 200 (u "OK") (Normal (json_of_snapshot sample_snapshot)))
              [u "modal"; u "hidden"] [] app_page eq_refl eq_refl eq_refl eq_refl)
    as (_ & Hopened & Hdone & _).
  exact (conj Hopened Hdone).
Defined.
